(** * gplearn/arg.py: input views, flattening, argument sampling

    A shallow embedding of [gplearn/arg.py] and the properties of its
    specification.  Python objects that can be shared or can contain
    themselves (the input views) live in an object store and are named by
    their address; exceptions are an explicit result type; the recursion
    of [_flatten] is bounded by the interpreter's recursion limit, which
    is the fuel of the embedding. *)

From Stdlib Require Import ZArith String Bool Lia DecimalString Relations List.
From Stdlib Require DecimalPos DecimalZ.
Import ListNotations.
Open Scope string_scope.
Open Scope list_scope.

Set Implicit Arguments.

(** ** Exceptions and results *)

(** The exceptions the module's operations can end with.  The last one is
    the error name of the specification's cyclic guard; it is listed so
    that statements can mention it. *)
Inductive exn : Type :=
| IndexError
| KeyError
| TypeError
| ValueError
| RecursionError
| AttributeError
| CyclicStructure.

Inductive result (A : Type) : Type :=
| Ok (a : A)
| Raise (e : exn).

Arguments Ok {A} a.
Arguments Raise {A} e.

Definition bind {A B : Type} (c : result A) (k : A -> result B) : result B :=
  match c with
  | Ok a => k a
  | Raise e => Raise e
  end.

Declare Scope py_scope.
Delimit Scope py_scope with py.
Notation "x <- c ;; k" := (bind c (fun x => k))
  (at level 100, c at next level, right associativity) : py_scope.
Notation "' p <- c ;; k" := (bind c (fun x => match x with p => k end))
  (at level 100, p pattern, c at next level, right associativity) : py_scope.
Open Scope py_scope.

Definition is_ok {A : Type} (r : result A) : bool :=
  match r with Ok _ => true | Raise _ => false end.

(** ** Indices, keys and paths *)

(** The Python values that occur as indices, mapping keys and flattened
    paths: [None], an [int], a [str]. *)
Inductive key : Type :=
| KNone
| KInt (i : Z)
| KStr (s : string).

(** [a == b] on those values. *)
Definition key_eqb (a b : key) : bool :=
  match a, b with
  | KNone, KNone => true
  | KInt i, KInt j => Z.eqb i j
  | KStr s, KStr t => String.eqb s t
  | _, _ => false
  end.

(** [str(i)] of an [int]: its decimal numeral. *)
Definition str_int (i : Z) : string := NilZero.string_of_int (Z.to_int i).

(** [str(k)], which is also how ["{}".format(k)] prints [k]. *)
Definition str (k : key) : string :=
  match k with
  | KNone => "None"
  | KInt i => str_int i
  | KStr s => s
  end.

(** [k in keys] for a list. *)
Definition key_in (k : key) (keys : list key) : bool :=
  existsb (key_eqb k) keys.

(** [l[idx]] for a Python list: an integer index counts from the end when
    negative, raises [IndexError] out of range; any other index is a
    [TypeError]. *)
Definition list_getitem {A : Type} (l : list A) (idx : key) : result A :=
  match idx with
  | KInt i =>
      let n := Z.of_nat (length l) in
      let j := if (i <? 0)%Z then (i + n)%Z else i in
      if ((0 <=? j) && (j <? n))%Z
      then match nth_error l (Z.to_nat j) with
           | Some x => Ok x
           | None => Raise IndexError
           end
      else Raise IndexError
  | _ => Raise TypeError
  end.

(** [enumerate(l)]. *)
Definition enumerate {A : Type} (l : list A) : list (nat * A) :=
  combine (seq 0 (length l)) l.

(** ** Dictionaries

    A [dict] keeps its items in insertion order and its keys pairwise
    distinct. *)
Definition pydict (V : Type) : Type := list (key * V).

Definition dict_keys {V : Type} (d : pydict V) : list key := map fst d.
Definition dict_values {V : Type} (d : pydict V) : list V := map snd d.

(** [d[k]]. *)
Fixpoint dict_getitem {V : Type} (d : pydict V) (k : key) : result V :=
  match d with
  | [] => Raise KeyError
  | (k', v) :: d' => if key_eqb k k' then Ok v else dict_getitem d' k
  end.

(** [d[k] = v]: an existing key keeps its place, a new one goes last. *)
Fixpoint dict_setitem {V : Type} (d : pydict V) (k : key) (v : V) : pydict V :=
  match d with
  | [] => [(k, v)]
  | (k', v') :: d' =>
      if key_eqb k k' then (k', v) :: d' else (k', v') :: dict_setitem d' k v
  end.

(** [{k: v for k, v in items}]. *)
Definition dict_of_items {V : Type} (items : list (key * V)) : pydict V :=
  fold_left (fun d kv => dict_setitem d (fst kv) (snd kv)) items [].

(** [{**a, **b}]. *)
Definition dict_merge {V : Type} (a b : pydict V) : pydict V :=
  fold_left (fun d kv => dict_setitem d (fst kv) (snd kv)) b a.

(** [frozendict(d)]: an immutable copy with the same items. *)
Definition frozendict {V : Type} (d : pydict V) : pydict V := d.

(** ** Values, arrays and frames *)

(** Element types of arrays and frame columns, by name. *)
Definition dtype : Type := string.

(** A numeric cell.  The module moves cells around and never computes on
    them; integers stand for them. *)
Definition cell : Type := Z.

(** Values that are not input views: the leaves of a nested structure.
    [AArray] is a one-dimensional numpy array, which is what a column of
    an array or of a frame is. *)
Inductive atom : Type :=
| ANone
| AInt (z : Z)
| AStr (s : string)
| AArray (dt : dtype) (cells : list cell).

Definition addr : Type := nat.

(** A Python value as the flattening sees it: a leaf, or a reference to
    an input view of the store. *)
Inductive obj : Type :=
| Leaf (v : atom)
| Ref (a : addr).

(** What [type(value)] and the [dtype] attributes evaluate to. *)
Inductive pytype : Type :=
| ClsNoneType
| ClsInt
| ClsStr
| ClsNdarray
| ClsNDInputs
| ClsDataframeInputs
| ClsDictInputs
| ClsListInputs
| Dtype (dt : dtype).

(** A two-dimensional numpy array, row by row, with its [shape]. *)
Record ndarray : Type := {
  nd_dtype : dtype;
  nd_shape : nat * nat;
  nd_rows : list (list cell)
}.

Definition nd_column (a : ndarray) (j : nat) : list cell :=
  map (fun row => nth j row 0%Z) (nd_rows a).

(** [a.T] *)
Definition nd_T (a : ndarray) : ndarray :=
  {| nd_dtype := nd_dtype a;
     nd_shape := (snd (nd_shape a), fst (nd_shape a));
     nd_rows := map (nd_column a) (seq 0 (snd (nd_shape a))) |}.

(** [len(a)] *)
Definition nd_len (a : ndarray) : nat := fst (nd_shape a).

(** [a[:, idx]] for an integer [idx]. *)
Definition nd_getcol (a : ndarray) (idx : Z) : result atom :=
  let n := Z.of_nat (snd (nd_shape a)) in
  let j := if (idx <? 0)%Z then (idx + n)%Z else idx in
  if ((0 <=? j) && (j <? n))%Z
  then Ok (AArray (nd_dtype a) (nd_column a (Z.to_nat j)))
  else Raise IndexError.

(** A column of a pandas frame. *)
Record series : Type := {
  s_dtype : dtype;
  s_cells : list cell
}.

Definition to_numpy (c : series) : atom := AArray (s_dtype c) (s_cells c).

(** A pandas frame: its columns in declared order, each under its label. *)
Record dataframe : Type := {
  df_nrows : nat;
  df_items : list (key * series)
}.

(** [df.columns] *)
Definition df_columns (df : dataframe) : list key := map fst (df_items df).

(** [df.dtypes.values.tolist()] *)
Definition df_dtypes (df : dataframe) : list pytype :=
  map (fun c => Dtype (s_dtype (snd c))) (df_items df).

(** [df.shape] *)
Definition df_shape (df : dataframe) : nat * nat :=
  (df_nrows df, length (df_items df)).

(** [df[label]] *)
Definition df_getitem (df : dataframe) (label : key) : result series :=
  dict_getitem (df_items df) label.

(** [df.iloc[:, idx]]: an integer position, counted from the end when
    negative; [IndexError] out of bounds, [ValueError] for an index that
    is not an integer. *)
Definition df_iloc (df : dataframe) (idx : key) : result series :=
  match idx with
  | KInt _ =>
      match list_getitem (df_items df) idx with
      | Ok c => Ok (snd c)
      | Raise _ => Raise IndexError
      end
  | _ => Raise ValueError
  end.

(** ** Input views and the object store *)

(** The attributes of an instance of each class. *)
Record list_inputs : Type := {
  li_values : list obj;
  li_types : list pytype
}.

Record dict_inputs : Type := {
  di_values : pydict obj;
  di_keys : list key;
  di_types : list pytype
}.

Record nd_inputs : Type := {
  ni_values : ndarray;
  ni_types : list pytype
}.

Record dataframe_inputs : Type := {
  fi_values : dataframe;
  fi_types : list pytype
}.

(** An instance of a concrete subclass of [BaseInputs]. *)
Inductive view : Type :=
| OfND (x : nd_inputs)
| OfDataframe (x : dataframe_inputs)
| OfDict (x : dict_inputs)
| OfList (x : list_inputs).

(** The store gives the present state of the view at every address.  A
    reference held by a Python object always denotes an object, so the
    store is total. *)
Definition store : Type := addr -> view.

Definition type_of_atom (v : atom) : pytype :=
  match v with
  | ANone => ClsNoneType
  | AInt _ => ClsInt
  | AStr _ => ClsStr
  | AArray _ _ => ClsNdarray
  end.

Definition class_of (v : view) : pytype :=
  match v with
  | OfND _ => ClsNDInputs
  | OfDataframe _ => ClsDataframeInputs
  | OfDict _ => ClsDictInputs
  | OfList _ => ClsListInputs
  end.

(** [type(value)] *)
Definition type_ (s : store) (value : obj) : pytype :=
  match value with
  | Leaf v => type_of_atom v
  | Ref a => class_of (s a)
  end.

(** [types or inferred]: [None] and the empty list are both false. *)
Definition types_or (types : option (list pytype)) (inferred : list pytype)
  : list pytype :=
  match types with
  | Some (t :: ts) => t :: ts
  | _ => inferred
  end.

(** A generator of [(idx, value)] pairs: one suspended step per pair,
    each of which yields or raises when the loop reaches it. *)
Definition generator : Type := list (result (key * obj)).

Module BaseInputs.

Definition __init__ (s : store) (values : list obj)
    (types : option (list pytype)) : list_inputs :=
  {| li_values := values;
     li_types := types_or types (map (type_ s) values) |}.

(** [len(self.values)] *)
Definition __len__ {X : Type} (values : list X) : nat := length values.

Definition build_idx (i : Z) (prefix suffix : key) : key :=
  match prefix with
  | KNone =>
      match suffix with
      | KNone => KStr (str_int i)
      | _ => suffix
      end
  | _ =>
      let suffix :=
        match suffix with
        | KNone => KStr (str_int i)
        | _ => suffix
        end in
      KStr (str prefix ++ "_" ++ str suffix)%string
  end.

End BaseInputs.

Module NDInputs.

Definition __init__ (values : ndarray) (types : option (list pytype))
    : nd_inputs :=
  {| ni_values := values;
     ni_types :=
       types_or types (repeat (Dtype (nd_dtype values)) (nd_len (nd_T values))) |}.

(** The index ranges over the integers, the index domain of this
    class. *)
Definition __getitem__ (self : nd_inputs) (idx : Z) : result obj :=
  c <- nd_getcol (ni_values self) idx ;; Ok (Leaf c).

Definition __len__ (self : nd_inputs) : nat := snd (nd_shape (ni_values self)).

Definition __iter__ (self : nd_inputs) : generator :=
  map (fun idx =>
         v <- __getitem__ self (Z.of_nat idx) ;; Ok (KInt (Z.of_nat idx), v))
      (seq 0 (__len__ self)).

End NDInputs.

Module DataframeInputs.

Definition __init__ (values : dataframe) (types : option (list pytype))
    : dataframe_inputs :=
  {| fi_values := values;
     fi_types := types_or types (df_dtypes values) |}.

Definition __getitem__ (self : dataframe_inputs) (idx : key) : result obj :=
  if key_in idx (df_columns (fi_values self))
  then c <- df_getitem (fi_values self) idx ;; Ok (Leaf (to_numpy c))
  else c <- df_iloc (fi_values self) idx ;; Ok (Leaf (to_numpy c)).

Definition __len__ (self : dataframe_inputs) : nat :=
  snd (df_shape (fi_values self)).

Definition __iter__ (self : dataframe_inputs) : generator :=
  map (fun idx => v <- __getitem__ self idx ;; Ok (idx, v))
      (df_columns (fi_values self)).

End DataframeInputs.

Module DictInputs.

Definition __init__ (s : store) (values : pydict obj)
    (types : option (list pytype)) : dict_inputs :=
  {| di_values := frozendict values;
     di_keys := dict_keys (frozendict values);
     di_types := types_or types (map (type_ s) (dict_values values)) |}.

Definition __getitem__ (self : dict_inputs) (idx : key) : result obj :=
  if key_in idx (di_keys self)
  then dict_getitem (di_values self) idx
  else k <- list_getitem (di_keys self) idx ;; dict_getitem (di_values self) k.

Definition __len__ (self : dict_inputs) : nat :=
  BaseInputs.__len__ (di_values self).

Definition __iter__ (self : dict_inputs) : generator :=
  map (fun idx => v <- __getitem__ self idx ;; Ok (idx, v)) (di_keys self).

End DictInputs.

Module ListInputs.

Definition __init__ := BaseInputs.__init__.

Definition __getitem__ (self : list_inputs) (idx : key) : result obj :=
  list_getitem (li_values self) idx.

Definition __len__ (self : list_inputs) : nat :=
  BaseInputs.__len__ (li_values self).

Definition __iter__ (self : list_inputs) : generator :=
  map (fun idx =>
         v <- __getitem__ self (KInt (Z.of_nat idx)) ;; Ok (KInt (Z.of_nat idx), v))
      (seq 0 (__len__ self)).

End ListInputs.

(** [iter(inputs)] and [len(inputs)], dispatched on the class. *)
Definition __iter__ (inputs : view) : generator :=
  match inputs with
  | OfND x => NDInputs.__iter__ x
  | OfDataframe x => DataframeInputs.__iter__ x
  | OfDict x => DictInputs.__iter__ x
  | OfList x => ListInputs.__iter__ x
  end.

Definition __len__ (inputs : view) : nat :=
  match inputs with
  | OfND x => NDInputs.__len__ x
  | OfDataframe x => DataframeInputs.__len__ x
  | OfDict x => DictInputs.__len__ x
  | OfList x => ListInputs.__len__ x
  end.

(** ** Flattening *)

(** One turn of the loop of [_flatten]: [acc] is the pair of lists built
    so far, [step] the generator's next step, [rec] the recursive call. *)
Definition flatten_step
    (rec : obj -> key -> result (list key * list obj)) (idx : key)
    (acc : result (list key * list obj)) (turn : nat * result (key * obj))
    : result (list key * list obj) :=
  '(flattened_idxs, flattened_values) <- acc ;;
  '(nested_idx, nested_value) <- snd turn ;;
  '(nested_flat_idx, nested_flat_values) <- rec nested_value nested_idx ;;
  let nested_flat_idx :=
    map (BaseInputs.build_idx (Z.of_nat (fst turn)) idx) nested_flat_idx in
  Ok (flattened_idxs ++ nested_flat_idx, flattened_values ++ nested_flat_values).

(** [BaseInputs._flatten].  [depth] is the number of calls the
    interpreter still allows on the stack; with none left the call
    raises [RecursionError]. *)
Fixpoint _flatten (depth : nat) (s : store) (inputs : obj) (idx : key)
  : result (list key * list obj) :=
  match depth with
  | O => Raise RecursionError
  | S depth' =>
      match inputs with
      | Ref a =>
          fold_left (flatten_step (_flatten depth' s) idx)
                    (enumerate (__iter__ (s a))) (Ok ([], []))
      | Leaf _ => Ok ([KNone], [inputs])
      end
  end.

Definition DictInputs_flatten (depth : nat) (s : store) (inputs : obj)
  : result dict_inputs :=
  '(flattened_idxs, flattened_values) <- _flatten depth s inputs KNone ;;
  Ok (DictInputs.__init__ s
        (dict_of_items (combine flattened_idxs flattened_values)) None).

Definition ListInputs_flatten (depth : nat) (s : store) (inputs : obj)
  : result list_inputs :=
  '(flattened_idxs, flattened_values) <- _flatten depth s inputs KNone ;;
  Ok (ListInputs.__init__ s flattened_values None).

(** ** ArgSampler *)

Section ArgSampler.

(** The numbers of the ranges and of the draws, numpy's [RandomState],
    its method [uniform(low, high)], which returns a number and leaves
    the state advanced, and sklearn's [check_random_state(seed)]. *)
Variable number : Type.
Variable RandomState : Type.
Variable uniform : RandomState -> number -> number -> number * RandomState.
Variable check_random_state : Z -> RandomState.

Record arg_sampler : Type := {
  arg_range_dict : pydict (number * number);
  kwarg_range_dict : pydict (number * number)
}.

(** The comprehension [{arg: uniform(low, high) for arg, (low, high) in
    items}], with the state of the random source passed along. *)
Definition draw_each (items : list (key * (number * number)))
    (random_state : RandomState) : pydict number * RandomState :=
  fold_left
    (fun acc item =>
       let '(x, rs) := uniform (snd acc) (fst (snd item)) (snd (snd item)) in
       (dict_setitem (fst acc) (fst item) x, rs))
    items ([], random_state).

(** The body of the loop of [sample], [n] times. *)
Fixpoint sample_loop (self : arg_sampler) (n : nat)
    (random_state : RandomState) (samples : list (pydict number))
    : list (pydict number) * RandomState :=
  match n with
  | O => (samples, random_state)
  | S n' =>
      let '(args, rs1) := draw_each (arg_range_dict self) random_state in
      let '(kwargs, rs2) := draw_each (arg_range_dict self) rs1 in
      sample_loop self n' rs2 (samples ++ [dict_merge args kwargs])
  end.

(** [sample]: the list it returns, and the state in which it leaves
    the random source. *)
Definition sample (self : arg_sampler) (random_state : option RandomState)
    (n : Z) (seed : Z) : list (pydict number) * RandomState :=
  let random_state :=
    match random_state with
    | Some rs => rs
    | None => check_random_state seed
    end in
  sample_loop self (Z.to_nat n) random_state [].

End ArgSampler.

(** ** ConstantFNInput *)

(** [object.__init__(self, *args, **kwargs)] for an instance of a class
    that defines [__init__]: it takes the instance and nothing else, and
    raises [TypeError] when given [nargs] further positional or [nkwargs]
    keyword arguments. *)
Definition object_init (nargs nkwargs : nat) : result unit :=
  match nargs, nkwargs with
  | O, O => Ok tt
  | _, _ => Raise TypeError
  end.

Section ConstantFNInput.

(** [world] is the state of the program a callable runs in, [arg] the
    values passed to it, [out] what it returns. *)
Variables world arg out : Type.

(** A Python callable: given positional and keyword arguments it runs in
    the state of the program, which it may change, and returns or
    raises. *)
Definition callable : Type :=
  list arg -> pydict arg -> world -> result out * world.

(** The attributes of an instance.  [fn] is read by [value]; nothing in
    the file assigns it, so it may be unset. *)
Record constant_fn_input : Type := {
  fn : option callable;
  cf_args : list arg;
  cf_kwargs : pydict arg
}.

(** [ConstantFNInput.__init__].  [super(_Function, self)] starts the
    method lookup after [_Function], whose only base is [object], so the
    call is [object.__init__] with the four positional arguments [self],
    [function], [name], [0] and the two keyword arguments [input_types],
    [output_type].  The two assignments come after it. *)
Definition ConstantFNInput_init (function : callable) (name : string)
    (args : list arg) (kwargs : pydict arg) (output_type : option pytype)
    : result constant_fn_input :=
  u <- object_init 4 2 ;;
  Ok {| fn := None; cf_args := args; cf_kwargs := kwargs |}.

(** The keys a call accepts in an unpacked keyword mapping are the
    strings. *)
Definition str_keys (kwargs : pydict arg) : bool :=
  forallb (fun k => match k with KStr _ => true | _ => false end)
          (dict_keys kwargs).

(** The property [value], a call of [self.fn] with [self.args] and
    [self.kwargs] unpacked: what it returns or raises, and the state it
    leaves.  An unset [fn] is an
    [AttributeError], a keyword that is not a string a [TypeError]. *)
Definition value (self : constant_fn_input) (w : world)
  : result out * world :=
  match fn self with
  | None => (Raise AttributeError, w)
  | Some f =>
      if str_keys (cf_kwargs self)
      then f (cf_args self) (cf_kwargs self) w
      else (Raise TypeError, w)
  end.

End ConstantFNInput.

(** ** Predicates of the statements *)

(** A whole pass of a generator gives [len] steps, each of which yields a
    pair [(inj idx, v)] with [get idx] returning [v]. *)
Definition yields_all {I : Type} (inj : I -> key) (gen : generator) (len : nat)
    (get : I -> result obj) : Prop :=
  length gen = len /\
  Forall (fun step => exists idx v, step = Ok (inj idx, v) /\ get idx = Ok v) gen.

(** [b] is an element of the view at [a]. *)
Definition element (s : store) (a b : addr) : Prop :=
  exists idx, In (Ok (idx, Ref b)) (__iter__ (s a)).

(** The view at [a] contains itself, directly or through other views. *)
Definition cyclic (s : store) (a : addr) : Prop :=
  clos_trans addr (element s) a a.

(** Every step of every generator of the store yields. *)
Definition all_yield (s : store) : Prop :=
  forall a step, In step (__iter__ (s a)) -> exists p, step = Ok p.

(** The list of keys of every DictInputs of the store is the list of keys
    of its mapping, as [DictInputs.__init__] makes it. *)
Definition keys_from_values (s : store) : Prop :=
  forall a x, s a = OfDict x -> di_keys x = dict_keys (di_values x).

(** ** Concrete structures *)

Definition empty_list : view := OfList {| li_values := []; li_types := [] |}.

(** [ListInputs([ListInputs([10, 11]), ListInputs([20, 21])])] *)
Definition nested_store : store :=
  fun a =>
    match a with
    | 0 => OfList (ListInputs.__init__ (fun _ => empty_list) [Ref 1; Ref 2] None)
    | 1 => OfList (ListInputs.__init__ (fun _ => empty_list)
                     [Leaf (AInt 10); Leaf (AInt 11)] None)
    | 2 => OfList (ListInputs.__init__ (fun _ => empty_list)
                     [Leaf (AInt 20); Leaf (AInt 21)] None)
    | _ => empty_list
    end.

(** [DictInputs({"a": ListInputs([10, 11]), "b": ListInputs([20, 21])})] *)
Definition named_store : store :=
  fun a =>
    match a with
    | 0 => OfDict (DictInputs.__init__ nested_store
                     [(KStr "a", Ref 1); (KStr "b", Ref 2)] None)
    | _ => nested_store a
    end.

(** [ListInputs([7, 8])] *)
Definition flat_store : store :=
  fun a =>
    match a with
    | 0 => OfList (ListInputs.__init__ (fun _ => empty_list)
                     [Leaf (AInt 7); Leaf (AInt 8)] None)
    | _ => empty_list
    end.

(** [l = []; v = ListInputs(l); l.append(v)]: the view at 0 is its own
    only element. *)
Definition cyclic_store : store :=
  fun a =>
    match a with
    | 0 => OfList {| li_values := [Ref 0]; li_types := [] |}
    | _ => empty_list
    end.

(** [DictInputs({"a": 1, "b": 2})] *)
Definition dict_ab : dict_inputs :=
  DictInputs.__init__ (fun _ => empty_list)
    [(KStr "a", Leaf (AInt 1)); (KStr "b", Leaf (AInt 2))] None.

(** A counter of no arguments: each call adds one to the count and
    returns it. *)
Definition counter : callable Z unit Z :=
  fun args kwargs count =>
    match args, kwargs with
    | [], [] => (Ok (count + 1)%Z, (count + 1)%Z)
    | _, _ => (Raise TypeError, count)
    end.

(** An instance as it would be had [fn] been set to the counter. *)
Definition counter_input : constant_fn_input Z unit Z :=
  {| fn := Some counter; cf_args := []; cf_kwargs := [] |}.

(** A random source for running the sampler: its state is the number of
    draws so far, and a draw from [(low, high)] is [low] plus that number. *)
Definition toy_uniform (rs : Z) (low high : Z) : Z * Z := ((low + rs)%Z, (rs + 1)%Z).
Definition toy_check_random_state (seed : Z) : Z := seed.

(** [ArgSampler({"x": (0, 1)}, {"k": (2, 3)})] *)
Definition sampler_xk : arg_sampler Z :=
  {| arg_range_dict := [(KStr "x", (0, 1)%Z)];
     kwarg_range_dict := [(KStr "k", (2, 3)%Z)] |}.

(** ** Notions of the further properties *)

Definition is_leaf (o : obj) : Prop := exists v, o = Leaf v.

Definition is_str (k : key) : Prop := exists t, k = KStr t.

(** ["{}_{}".format(idx, q)] *)
Definition prefixed (idx q : key) : key := KStr (str idx ++ "_" ++ str q)%string.

(** The string form of a position, as a path. *)
Definition position_path (i : nat) : key := KStr (str_int (Z.of_nat i)).

(** The view at [b] is an element of the view at [a]. *)
Definition contained (s : store) (b a : addr) : Prop := element s a b.

(** What the elements of a view give to the flattened lists, one result
    per element, put together from left to right; the first exception
    ends it. *)
Fixpoint gather (parts : list (result (list key * list obj)))
  : result (list key * list obj) :=
  match parts with
  | [] => Ok ([], [])
  | part :: rest =>
      '(p, v) <- part ;;
      '(ps, vs) <- gather rest ;;
      Ok (p ++ ps, v ++ vs)
  end.

(** What the element [(k, v)] at position [i] of a view flattened from
    the top gives: a leaf goes under its position, a view gives its own
    flattening under its index [k]. *)
Definition top_part (depth : nat) (s : store) (turn : nat * (key * obj))
  : result (list key * list obj) :=
  match snd (snd turn) with
  | Leaf x => Ok ([position_path (fst turn)], [Leaf x])
  | Ref b => _flatten (S depth) s (Ref b) (fst (snd turn))
  end.

(** [DictInputs({n: ListInputs([x]), str(n): ListInputs([y])})] for
    [n = 5], [x = 1], [y = 2]: an [int] key and the [str] key that prints
    the same. *)
Definition clash_store : store :=
  fun a =>
    match a with
    | 0 => OfDict (DictInputs.__init__ (fun _ => empty_list)
                     [(KInt 5, Ref 1); (KStr "5", Ref 2)] None)
    | 1 => OfList (ListInputs.__init__ (fun _ => empty_list) [Leaf (AInt 1)] None)
    | 2 => OfList (ListInputs.__init__ (fun _ => empty_list) [Leaf (AInt 2)] None)
    | _ => empty_list
    end.

(** [DictInputs({"a": 1, "b": 2})] at address 0. *)
Definition dict_store : store :=
  fun a =>
    match a with
    | 0 => OfDict dict_ab
    | _ => empty_list
    end.

(** A 2 x 3 array of [int64] and a frame with the columns ["u"], [0]. *)
Definition array_23 : ndarray :=
  {| nd_dtype := "int64"; nd_shape := (2, 3);
     nd_rows := [[1; 2; 3]; [4; 5; 6]]%Z |}.

Definition frame_u0 : dataframe :=
  {| df_nrows := 2;
     df_items := [(KStr "u", {| s_dtype := "int64"; s_cells := [1; 2]%Z |});
                  (KInt 0, {| s_dtype := "float64"; s_cells := [3; 4]%Z |})] |}.

(** * Properties *)

Unset Implicit Arguments.

(** ** Keys, lists and dictionaries *)

Lemma key_eqb_eq (a b : key) : key_eqb a b = true <-> a = b.
Proof.
  destruct a, b; simpl; split; intro H;
    try discriminate; try reflexivity.
  - apply Z.eqb_eq in H. now subst.
  - injection H as ->. apply Z.eqb_refl.
  - apply String.eqb_eq in H. now subst.
  - injection H as ->. apply String.eqb_refl.
Qed.

Lemma key_eqb_refl (a : key) : key_eqb a a = true.
Proof. now apply key_eqb_eq. Qed.

Lemma key_in_In (k : key) (l : list key) : key_in k l = true <-> In k l.
Proof.
  unfold key_in. rewrite existsb_exists. split.
  - intros (x & Hx & E). apply key_eqb_eq in E. now subst.
  - intro H. exists k. split; [assumption | apply key_eqb_refl].
Qed.

Lemma dict_getitem_keys {V : Type} (d : pydict V) (k : key) :
  In k (dict_keys d) -> exists v, dict_getitem d k = Ok v.
Proof.
  induction d as [|[k' v'] d IH]; simpl; [contradiction|].
  intros [E | H].
  - subst. rewrite key_eqb_refl. now exists v'.
  - destruct (key_eqb k k'); [now exists v' | now apply IH].
Qed.

Lemma list_getitem_nat {A : Type} (l : list A) (i : nat) (x : A) :
  nth_error l i = Some x -> list_getitem l (KInt (Z.of_nat i)) = Ok x.
Proof.
  intro H. assert (i < length l) by (apply nth_error_Some; congruence).
  unfold list_getitem.
  replace (Z.of_nat i <? 0)%Z with false by (symmetry; apply Z.ltb_ge; lia).
  replace (0 <=? Z.of_nat i)%Z with true by (symmetry; apply Z.leb_le; lia).
  replace (Z.of_nat i <? Z.of_nat (length l))%Z with true
    by (symmetry; apply Z.ltb_lt; lia).
  simpl. now rewrite Nat2Z.id, H.
Qed.

Lemma list_getitem_inside {A : Type} (l : list A) (i : Z) :
  (- Z.of_nat (length l) <= i < Z.of_nat (length l))%Z ->
  exists x, list_getitem l (KInt i) = Ok x /\ In x l.
Proof.
  intro H. unfold list_getitem.
  set (n := Z.of_nat (length l)) in *.
  set (j := if (i <? 0)%Z then (i + n)%Z else i).
  assert (Hj : (0 <= j < n)%Z).
  { subst j. destruct (Z.ltb_spec i 0); lia. }
  replace (0 <=? j)%Z with true by (symmetry; apply Z.leb_le; lia).
  replace (j <? n)%Z with true by (symmetry; apply Z.ltb_lt; lia).
  simpl. destruct (nth_error l (Z.to_nat j)) as [x|] eqn:E.
  - exists x. split; [reflexivity | eapply nth_error_In; eassumption].
  - apply nth_error_None in E. lia.
Qed.

Lemma list_getitem_outside {A : Type} (l : list A) (i : Z) :
  (Z.of_nat (length l) <= i \/ i < - Z.of_nat (length l))%Z ->
  list_getitem l (KInt i) = Raise IndexError.
Proof.
  intro H. unfold list_getitem.
  set (n := Z.of_nat (length l)) in *.
  destruct (Z.ltb_spec i 0).
  - replace (0 <=? i + n)%Z with false by (symmetry; apply Z.leb_gt; lia).
    reflexivity.
  - replace (i <? n)%Z with false by (symmetry; apply Z.ltb_ge; lia).
    now rewrite andb_false_r.
Qed.

(** ** Path building *)

(** C2.  [build_idx(i, p, s)] is the string form of [i] when [p] and [s]
    are both [None], [s] itself when only [p] is [None], ["{p}_{i}"] when
    only [s] is [None], and ["{p}_{s}"] when both are given. *)
Theorem build_idx_cases (i : Z) (p s : key) :
  p <> KNone -> s <> KNone ->
  BaseInputs.build_idx i KNone KNone = KStr (str_int i) /\
  BaseInputs.build_idx i KNone s = s /\
  BaseInputs.build_idx i p KNone = KStr (str p ++ "_" ++ str_int i)%string /\
  BaseInputs.build_idx i p s = KStr (str p ++ "_" ++ str s)%string.
Proof.
  intros Hp Hs. unfold BaseInputs.build_idx.
  destruct p; [contradiction | |]; (destruct s; [contradiction | |]);
    repeat split.
Qed.

Lemma build_idx_cases_witness :
  BaseInputs.build_idx 3 KNone KNone = KStr "3" /\
  BaseInputs.build_idx 3 KNone (KStr "b") = KStr "b" /\
  BaseInputs.build_idx 3 (KInt 7) KNone = KStr "7_3" /\
  BaseInputs.build_idx 3 (KInt 7) (KStr "b") = KStr "7_b".
Proof.
  apply (build_idx_cases 3 (KInt 7) (KStr "b")); discriminate.
Defined.

(** ** Lookup in a DictInputs *)

Lemma dict_init_keys (s : store) (values : pydict obj)
    (types : option (list pytype)) :
  di_keys (DictInputs.__init__ s values types) = dict_keys values /\
  di_values (DictInputs.__init__ s values types) = values.
Proof. split; reflexivity. Qed.

(** C3.  For [DictInputs({"a": 1, "b": 2})], [get("a")] is 1, [get(0)]
    is 1 and [get(1)] is 2; and for every DictInputs an integer that is
    not a key and lies within [-len, len) is looked up by position in the
    list of keys and returns the value under that key, without an
    error. *)
Theorem dict_positional_fallback (s : store) (values : pydict obj)
    (types : option (list pytype)) (i : Z) :
  key_in (KInt i) (di_keys (DictInputs.__init__ s values types)) = false ->
  (- Z.of_nat (DictInputs.__len__ (DictInputs.__init__ s values types)) <= i
   < Z.of_nat (DictInputs.__len__ (DictInputs.__init__ s values types)))%Z ->
  DictInputs.__getitem__ dict_ab (KStr "a") = Ok (Leaf (AInt 1)) /\
  DictInputs.__getitem__ dict_ab (KInt 0) = Ok (Leaf (AInt 1)) /\
  DictInputs.__getitem__ dict_ab (KInt 1) = Ok (Leaf (AInt 2)) /\
  exists k v,
    list_getitem (dict_keys values) (KInt i) = Ok k /\
    dict_getitem values k = Ok v /\
    DictInputs.__getitem__ (DictInputs.__init__ s values types) (KInt i) = Ok v.
Proof.
  intros Hk Hi. repeat split.
  unfold DictInputs.__getitem__. rewrite Hk.
  destruct (dict_init_keys s values types) as [-> ->].
  unfold DictInputs.__len__, BaseInputs.__len__ in Hi.
  destruct (dict_init_keys s values types) as [_ E]. rewrite E in Hi. clear E.
  destruct (list_getitem_inside (dict_keys values) i) as (k & Ek & Hin).
  { unfold dict_keys. now rewrite length_map. }
  destruct (dict_getitem_keys values k Hin) as (v & Ev).
  exists k, v. rewrite Ek. simpl. now rewrite Ev.
Qed.

Lemma dict_positional_fallback_witness :
  DictInputs.__getitem__ dict_ab (KStr "a") = Ok (Leaf (AInt 1)) /\
  DictInputs.__getitem__ dict_ab (KInt 0) = Ok (Leaf (AInt 1)) /\
  DictInputs.__getitem__ dict_ab (KInt 1) = Ok (Leaf (AInt 2)) /\
  exists k v,
    list_getitem [KStr "a"; KStr "b"] (KInt (-1)) = Ok k /\
    dict_getitem [(KStr "a", Leaf (AInt 1)); (KStr "b", Leaf (AInt 2))] k = Ok v /\
    DictInputs.__getitem__ dict_ab (KInt (-1)) = Ok v.
Proof.
  apply (dict_positional_fallback (fun _ => empty_list)
           [(KStr "a", Leaf (AInt 1)); (KStr "b", Leaf (AInt 2))] None (-1)).
  - reflexivity.
  - simpl. lia.
Defined.

(** C10.  In a DictInputs, a lookup argument that is not a key and not a
    valid position raises: an integer [i] with [i >= len] or [i < -len]
    is an [IndexError] of the list of keys, and an argument that is not
    an integer is a [TypeError] of that list. *)
Theorem dict_getitem_invalid (s : store) (values : pydict obj)
    (types : option (list pytype)) (idx : key) :
  key_in idx (di_keys (DictInputs.__init__ s values types)) = false ->
  (forall i, idx = KInt i ->
     (Z.of_nat (DictInputs.__len__ (DictInputs.__init__ s values types)) <= i
      \/ i < - Z.of_nat (DictInputs.__len__ (DictInputs.__init__ s values types)))%Z) ->
  DictInputs.__getitem__ (DictInputs.__init__ s values types) idx =
  Raise (match idx with KInt _ => IndexError | _ => TypeError end).
Proof.
  intros Hk Hi. unfold DictInputs.__getitem__. rewrite Hk.
  destruct idx as [| i |]; try reflexivity.
  specialize (Hi i eq_refl).
  unfold DictInputs.__len__, BaseInputs.__len__ in Hi.
  destruct (dict_init_keys s values types) as [-> E]. rewrite E in Hi.
  rewrite list_getitem_outside; [reflexivity|].
  unfold dict_keys. now rewrite length_map.
Qed.

Lemma dict_getitem_invalid_witness :
  DictInputs.__getitem__ dict_ab (KInt 2) = Raise IndexError.
Proof.
  apply (dict_getitem_invalid (fun _ => empty_list)
           [(KStr "a", Leaf (AInt 1)); (KStr "b", Leaf (AInt 2))] None (KInt 2)).
  - reflexivity.
  - intros i E. injection E as <-. simpl. lia.
Defined.

(** ** Construction and iteration of the views *)

(** C5.  Each of the four views, built without explicit types, has as
    many inferred types as it has elements. *)
Theorem inferred_types_length (s : store) (a : ndarray) (df : dataframe)
    (d : pydict obj) (l : list obj) :
  length (ni_types (NDInputs.__init__ a None)) =
    NDInputs.__len__ (NDInputs.__init__ a None) /\
  length (fi_types (DataframeInputs.__init__ df None)) =
    DataframeInputs.__len__ (DataframeInputs.__init__ df None) /\
  length (di_types (DictInputs.__init__ s d None)) =
    DictInputs.__len__ (DictInputs.__init__ s d None) /\
  length (li_types (ListInputs.__init__ s l None)) =
    ListInputs.__len__ (ListInputs.__init__ s l None).
Proof.
  repeat split; simpl.
  - now rewrite repeat_length.
  - unfold df_dtypes. now rewrite length_map.
  - unfold DictInputs.__len__, BaseInputs.__len__, dict_values, frozendict.
    simpl. now rewrite !length_map.
  - unfold ListInputs.__len__, BaseInputs.__len__. simpl. now rewrite length_map.
Qed.

Lemma yields_all_map {I J : Type} (inj : I -> key) (get : I -> result obj)
    (ix : J -> I) (js : list J) :
  (forall j, In j js -> exists v, get (ix j) = Ok v) ->
  yields_all inj
    (map (fun j => v <- get (ix j) ;; Ok (inj (ix j), v)) js) (length js) get.
Proof.
  intro H. split; [apply length_map|].
  apply Forall_forall. intros step Hstep.
  apply in_map_iff in Hstep. destruct Hstep as (j & <- & Hj).
  destruct (H j Hj) as (v & E). exists (ix j), v. now rewrite E.
Qed.

Lemma nd_getitem_inside (self : nd_inputs) (idx : nat) :
  idx < NDInputs.__len__ self ->
  exists v, NDInputs.__getitem__ self (Z.of_nat idx) = Ok v.
Proof.
  unfold NDInputs.__len__, NDInputs.__getitem__, nd_getcol. intro H.
  replace (Z.of_nat idx <? 0)%Z with false by (symmetry; apply Z.ltb_ge; lia).
  replace (0 <=? Z.of_nat idx)%Z with true by (symmetry; apply Z.leb_le; lia).
  replace (Z.of_nat idx <? Z.of_nat (snd (nd_shape (ni_values self))))%Z
    with true by (symmetry; apply Z.ltb_lt; lia).
  simpl. eauto.
Qed.

Lemma dataframe_getitem_label (self : dataframe_inputs) (idx : key) :
  In idx (df_columns (fi_values self)) ->
  exists v, DataframeInputs.__getitem__ self idx = Ok v.
Proof.
  intro H. unfold DataframeInputs.__getitem__.
  replace (key_in idx (df_columns (fi_values self))) with true
    by (symmetry; now apply key_in_In).
  destruct (dict_getitem_keys (df_items (fi_values self)) idx H) as (c & E).
  unfold df_getitem. rewrite E. simpl. eauto.
Qed.

Lemma dict_getitem_key (s : store) (values : pydict obj)
    (types : option (list pytype)) (idx : key) :
  In idx (di_keys (DictInputs.__init__ s values types)) ->
  exists v, DictInputs.__getitem__ (DictInputs.__init__ s values types) idx = Ok v.
Proof.
  intro H. unfold DictInputs.__getitem__.
  replace (key_in idx (di_keys (DictInputs.__init__ s values types))) with true
    by (symmetry; now apply key_in_In).
  now apply dict_getitem_keys.
Qed.

Lemma list_getitem_position (self : list_inputs) (idx : nat) :
  idx < ListInputs.__len__ self ->
  exists v, ListInputs.__getitem__ self (KInt (Z.of_nat idx)) = Ok v.
Proof.
  unfold ListInputs.__len__, BaseInputs.__len__, ListInputs.__getitem__.
  intro H. destruct (nth_error (li_values self) idx) as [x|] eqn:E.
  - exists x. now apply list_getitem_nat.
  - apply nth_error_None in E. lia.
Qed.

(** C6.  For each of the four views, a whole pass of the iteration gives
    as many (index, value) pairs as the view has elements, no step
    raises, and the lookup of a yielded index returns the value yielded
    with it. *)
Theorem iteration_complete (s : store) (a : ndarray) (df : dataframe)
    (d : pydict obj) (l : list obj) (t1 t2 t3 t4 : option (list pytype)) :
  yields_all (fun i => KInt i)
    (NDInputs.__iter__ (NDInputs.__init__ a t1))
    (NDInputs.__len__ (NDInputs.__init__ a t1))
    (NDInputs.__getitem__ (NDInputs.__init__ a t1)) /\
  yields_all (fun k => k)
    (DataframeInputs.__iter__ (DataframeInputs.__init__ df t2))
    (DataframeInputs.__len__ (DataframeInputs.__init__ df t2))
    (DataframeInputs.__getitem__ (DataframeInputs.__init__ df t2)) /\
  yields_all (fun k => k)
    (DictInputs.__iter__ (DictInputs.__init__ s d t3))
    (DictInputs.__len__ (DictInputs.__init__ s d t3))
    (DictInputs.__getitem__ (DictInputs.__init__ s d t3)) /\
  yields_all (fun k => k)
    (ListInputs.__iter__ (ListInputs.__init__ s l t4))
    (ListInputs.__len__ (ListInputs.__init__ s l t4))
    (ListInputs.__getitem__ (ListInputs.__init__ s l t4)).
Proof.
  split; [|split; [|split]].
  - set (self := NDInputs.__init__ a t1).
    replace (NDInputs.__len__ self) with (length (seq 0 (NDInputs.__len__ self)))
      at 1 by apply length_seq.
    apply (yields_all_map (fun i => KInt i) (NDInputs.__getitem__ self) Z.of_nat).
    intros j Hj. apply in_seq in Hj. apply nd_getitem_inside. lia.
  - set (self := DataframeInputs.__init__ df t2).
    replace (DataframeInputs.__len__ self)
      with (length (df_columns (fi_values self)))
      by (unfold df_columns; apply length_map).
    apply (yields_all_map (fun k => k) (DataframeInputs.__getitem__ self)
             (fun k => k)).
    intros j Hj. now apply dataframe_getitem_label.
  - set (self := DictInputs.__init__ s d t3).
    replace (DictInputs.__len__ self) with (length (di_keys self))
      by (unfold dict_keys; apply length_map).
    apply (yields_all_map (fun k => k) (DictInputs.__getitem__ self)
             (fun k => k)).
    intros j Hj. now apply dict_getitem_key.
  - set (self := ListInputs.__init__ s l t4).
    replace (ListInputs.__len__ self)
      with (length (seq 0 (ListInputs.__len__ self))) at 1 by apply length_seq.
    apply (yields_all_map (fun k => k) (ListInputs.__getitem__ self)
             (fun i => KInt (Z.of_nat i))).
    intros j Hj. apply in_seq in Hj. apply list_getitem_position. lia.
Qed.

(** ** ConstantFNInput *)

(** The body of [value] on an instance whose [fn] is set calls it with
    the stored arguments, each time it is read. *)
Lemma value_calls_fn (world arg out : Type)
    (self : constant_fn_input world arg out) (f : callable world arg out)
    (w : world) :
  fn self = Some f -> str_keys (cf_kwargs self) = true ->
  value self w = f (cf_args self) (cf_kwargs self) w.
Proof. intros Hf Hk. unfold value. now rewrite Hf, Hk. Qed.

Lemma value_without_fn (world arg out : Type)
    (self : constant_fn_input world arg out) (w : world) :
  fn self = None -> value self w = (Raise AttributeError, w).
Proof. intro Hf. unfold value. now rewrite Hf. Qed.

Lemma value_of_counter_twice (count : Z) :
  value counter_input count = (Ok (count + 1)%Z, (count + 1)%Z) /\
  value counter_input (snd (value counter_input count))
    = (Ok (count + 2)%Z, (count + 2)%Z).
Proof.
  split; [reflexivity|]. unfold value, counter_input, counter. simpl.
  now replace (count + 1 + 1)%Z with (count + 2)%Z by lia.
Qed.

(** C7.  No ConstantFNInput is ever built: for every callable, name,
    arguments and output type the initialiser raises [TypeError] in its
    first statement, before [args] and [kwargs] are stored; so it does
    for the counter with no arguments, and no access of [value] follows. *)
Theorem constant_fn_input_never_built :
  (forall (world arg out : Type) (function : callable world arg out)
          (name : string) (args : list arg) (kwargs : pydict arg)
          (output_type : option pytype),
      ConstantFNInput_init function name args kwargs output_type
        = Raise TypeError) /\
  ConstantFNInput_init counter "counter" [] [] None = Raise TypeError.
Proof. split; reflexivity. Qed.

(** ** ArgSampler *)

Lemma dict_setitem_keys_old {V : Type} (d : pydict V) (k : key) (v : V) :
  In k (dict_keys d) -> dict_keys (dict_setitem d k v) = dict_keys d.
Proof.
  induction d as [|[k' v'] d IH]; simpl; [contradiction|].
  intro H. destruct (key_eqb k k') eqn:E; [reflexivity|].
  simpl. f_equal. apply IH. destruct H as [H | H]; [|assumption].
  subst. rewrite key_eqb_refl in E. discriminate.
Qed.

Lemma dict_setitem_keys_new {V : Type} (d : pydict V) (k : key) (v : V) :
  ~ In k (dict_keys d) -> dict_keys (dict_setitem d k v) = dict_keys d ++ [k].
Proof.
  induction d as [|[k' v'] d IH]; simpl; [reflexivity|].
  intro H. destruct (key_eqb k k') eqn:E.
  - apply key_eqb_eq in E. subst. tauto.
  - simpl. f_equal. apply IH. tauto.
Qed.

Lemma dict_merge_keys {V : Type} (b a : pydict V) :
  incl (dict_keys b) (dict_keys a) -> dict_keys (dict_merge a b) = dict_keys a.
Proof.
  unfold dict_merge. revert a.
  induction b as [|[k v] b IH]; intros a H; simpl; [reflexivity|].
  assert (Hk : In k (dict_keys a)) by (apply H; now left).
  rewrite IH; rewrite dict_setitem_keys_old by assumption; [reflexivity|].
  intros x Hx. apply H. now right.
Qed.

Section ArgSamplerFacts.

Variable number : Type.
Variable RandomState : Type.
Variable uniform : RandomState -> number -> number -> number * RandomState.
Variable check_random_state : Z -> RandomState.

Lemma draw_each_keys (items : list (key * (number * number)))
    (d : pydict number) (rs : RandomState) :
  NoDup (dict_keys d ++ dict_keys items) ->
  dict_keys
    (fst (fold_left
            (fun acc item =>
               let '(x, rs) :=
                 uniform (snd acc) (fst (snd item)) (snd (snd item)) in
               (dict_setitem (fst acc) (fst item) x, rs))
            items (d, rs)))
  = dict_keys d ++ dict_keys items.
Proof.
  revert d rs. induction items as [|[k r] items IH]; intros d rs H; simpl.
  - now rewrite app_nil_r.
  - destruct (uniform rs (fst r) (snd r)) as [x rs'] eqn:E. simpl.
    simpl in H. apply NoDup_remove in H as H'. destruct H' as [H1 H2].
    assert (Hk : ~ In k (dict_keys d)).
    { intro Hin. apply H2. apply in_or_app. now left. }
    rewrite IH; rewrite dict_setitem_keys_new by assumption.
    + now rewrite <- app_assoc.
    + rewrite <- app_assoc. exact H.
Qed.

Lemma sample_loop_keys (self : arg_sampler number) (n : nat)
    (rs : RandomState) (samples : list (pydict number)) :
  NoDup (dict_keys (arg_range_dict self)) ->
  Forall (fun d => dict_keys d = dict_keys (arg_range_dict self)) samples ->
  length (fst (sample_loop uniform self n rs samples)) = length samples + n /\
  Forall (fun d => dict_keys d = dict_keys (arg_range_dict self))
         (fst (sample_loop uniform self n rs samples)).
Proof.
  intro Hnd. revert rs samples.
  induction n as [|n IH]; intros rs samples Hs; simpl.
  - split; [lia | assumption].
  - destruct (draw_each uniform (arg_range_dict self) rs) as [args rs1] eqn:E1.
    destruct (draw_each uniform (arg_range_dict self) rs1) as [kwargs rs2] eqn:E2.
    assert (Ka : dict_keys args = dict_keys (arg_range_dict self)).
    { change args with (fst (args, rs1)). rewrite <- E1.
      unfold draw_each. now rewrite draw_each_keys. }
    assert (Kk : dict_keys kwargs = dict_keys (arg_range_dict self)).
    { change kwargs with (fst (kwargs, rs2)). rewrite <- E2.
      unfold draw_each. now rewrite draw_each_keys. }
    destruct (IH rs2 (samples ++ [dict_merge args kwargs])) as [L F].
    + apply Forall_app. split; [assumption|]. constructor; [|constructor].
      rewrite dict_merge_keys; [assumption|].
      rewrite Ka, Kk. apply incl_refl.
    + split; [|assumption]. rewrite L, length_app. simpl. lia.
Qed.

(** [sample] returns [n] mappings, and the keys of each are the names of
    [arg_range_dict], in its order: no name of [kwarg_range_dict] is
    read. *)
Lemma sample_keys (self : arg_sampler number)
    (random_state : option RandomState) (n seed : Z) :
  NoDup (dict_keys (arg_range_dict self)) ->
  length (fst (sample uniform check_random_state self random_state n seed))
    = Z.to_nat n /\
  Forall (fun d => dict_keys d = dict_keys (arg_range_dict self))
         (fst (sample uniform check_random_state self random_state n seed)).
Proof.
  intro H. unfold sample.
  apply (sample_loop_keys self (Z.to_nat n) _ [] H). constructor.
Qed.

End ArgSamplerFacts.

(** C4.  The sampler built from [{"x": (0, 1)}] and [{"k": (2, 3)}],
    asked for one sample, returns one mapping, and this mapping has an
    entry for ["x"] and none for the declared keyword name ["k"]: the
    keyword entries are computed over the items of [arg_range_dict], names
    included. *)
Theorem sample_omits_keyword_names :
  fst (sample toy_uniform toy_check_random_state sampler_xk None 1 0)
    = [[(KStr "x", 1%Z)]] /\
  key_in (KStr "k") (dict_keys (kwarg_range_dict sampler_xk)) = true /\
  Forall (fun d => key_in (KStr "k") (dict_keys d) = false)
         (fst (sample toy_uniform toy_check_random_state sampler_xk None 1 0)).
Proof.
  repeat split. repeat constructor.
Qed.

(** ** Flattening *)

Lemma flatten_ref (depth : nat) (s : store) (a : addr) (idx : key) :
  _flatten (S depth) s (Ref a) idx =
  fold_left (flatten_step (_flatten depth s) idx)
            (enumerate (__iter__ (s a))) (Ok ([], [])).
Proof. reflexivity. Qed.

Lemma flatten_leaf (depth : nat) (s : store) (v : atom) (idx : key) :
  _flatten (S depth) s (Leaf v) idx = Ok ([KNone], [Leaf v]).
Proof. reflexivity. Qed.

(** Once an exception is raised the rest of the loop is not run. *)
Lemma flatten_loop_raise rec idx turns (e : exn) :
  fold_left (flatten_step rec idx) turns (Raise e) = Raise e.
Proof. induction turns as [|t turns IH]; simpl; [reflexivity | exact IH]. Qed.

Lemma flatten_step_ok rec idx fi fv (i : nat) (k : key) (v : obj) ni nv :
  rec v k = Ok (ni, nv) ->
  flatten_step rec idx (Ok (fi, fv)) (i, Ok (k, v)) =
  Ok (fi ++ map (BaseInputs.build_idx (Z.of_nat i) idx) ni, fv ++ nv).
Proof. intro H. unfold flatten_step. simpl. now rewrite H. Qed.

(** A view of two leaves, reached under the index [idx]. *)
Lemma flatten_two_leaves (s : store) (b : addr) (k1 k2 : key) (x1 x2 : atom)
    (depth : nat) (idx : key) :
  __iter__ (s b) = [Ok (k1, Leaf x1); Ok (k2, Leaf x2)] ->
  _flatten (S (S depth)) s (Ref b) idx =
  Ok ([BaseInputs.build_idx 0 idx KNone; BaseInputs.build_idx 1 idx KNone],
      [Leaf x1; Leaf x2]).
Proof.
  intro Hb. rewrite flatten_ref, Hb.
  cbn [enumerate length seq combine fold_left].
  rewrite (flatten_step_ok _ _ _ _ _ _ _ _ _ (flatten_leaf depth s x1 k1)).
  rewrite (flatten_step_ok _ _ _ _ _ _ _ _ _ (flatten_leaf depth s x2 k2)).
  reflexivity.
Qed.

(** C1.  An outer view that yields the positions 0 and 1, each with an
    inner view of two leaves, flattens (from the top, with no index
    given) to the four paths "0_0", "0_1", "1_0", "1_1" in this order,
    with the leaves in depth-first order; three calls deep is enough. *)
Theorem flatten_two_levels (s : store) (a b c : addr)
    (k1 k2 k3 k4 : key) (x1 x2 x3 x4 : atom) (depth : nat) :
  __iter__ (s a) = [Ok (KInt 0, Ref b); Ok (KInt 1, Ref c)] ->
  __iter__ (s b) = [Ok (k1, Leaf x1); Ok (k2, Leaf x2)] ->
  __iter__ (s c) = [Ok (k3, Leaf x3); Ok (k4, Leaf x4)] ->
  3 <= depth ->
  _flatten depth s (Ref a) KNone =
  Ok ([KStr "0_0"; KStr "0_1"; KStr "1_0"; KStr "1_1"],
      [Leaf x1; Leaf x2; Leaf x3; Leaf x4]).
Proof.
  intros Ha Hb Hc Hd.
  destruct depth as [|[|[|depth]]]; try lia.
  rewrite flatten_ref, Ha.
  cbn [enumerate length seq combine fold_left].
  rewrite (flatten_step_ok _ _ _ _ _ _ _ _ _
             (flatten_two_leaves s b k1 k2 x1 x2 depth (KInt 0) Hb)).
  rewrite (flatten_step_ok _ _ _ _ _ _ _ _ _
             (flatten_two_leaves s c k3 k4 x3 x4 depth (KInt 1) Hc)).
  reflexivity.
Qed.

Lemma flatten_two_levels_witness :
  _flatten 3 nested_store (Ref 0) KNone =
  Ok ([KStr "0_0"; KStr "0_1"; KStr "1_0"; KStr "1_1"],
      [Leaf (AInt 10); Leaf (AInt 11); Leaf (AInt 20); Leaf (AInt 21)]).
Proof.
  apply (flatten_two_levels nested_store 0 1 2
           (KInt 0) (KInt 1) (KInt 0) (KInt 1)); [reflexivity .. | lia].
Defined.

(** When the outer view is a DictInputs with named keys, the key of an
    inner view stands where its position stood; the keys of the inner
    views themselves never show, their leaves go by position. *)
Lemma flatten_named_outer :
  _flatten 3 named_store (Ref 0) KNone =
  Ok ([KStr "a_0"; KStr "a_1"; KStr "b_0"; KStr "b_1"],
      [Leaf (AInt 10); Leaf (AInt 11); Leaf (AInt 20); Leaf (AInt 21)]).
Proof. vm_compute. reflexivity. Qed.

(** The generator of a ListInputs yields each element under its
    position. *)
Lemma list_iter_from (pre suf : list obj) :
  map (fun idx =>
         v <- list_getitem (pre ++ suf) (KInt (Z.of_nat idx)) ;;
         Ok (KInt (Z.of_nat idx), v))
      (seq (length pre) (length suf))
  = map (fun p => Ok (KInt (Z.of_nat (fst p)), snd p))
        (combine (seq (length pre) (length suf)) suf).
Proof.
  revert pre. induction suf as [|x suf IH]; intro pre; [reflexivity|].
  cbn [length seq combine map fst snd]. f_equal.
  - rewrite (list_getitem_nat (pre ++ x :: suf) (length pre) x); [reflexivity|].
    rewrite nth_error_app2 by lia. now rewrite Nat.sub_diag.
  - specialize (IH (pre ++ [x])).
    rewrite <- app_assoc, length_app in IH. simpl in IH.
    rewrite Nat.add_1_r in IH. exact IH.
Qed.

Lemma list_iter_enumerate (l : list obj) (ts : list pytype) :
  ListInputs.__iter__ {| li_values := l; li_types := ts |}
  = map (fun p => Ok (KInt (Z.of_nat (fst p)), snd p)) (enumerate l).
Proof. exact (list_iter_from [] l). Qed.

(** The loop of [_flatten] at the top (no index given) over a generator
    that yields leaves only. *)
Lemma flatten_loop_leaves rec (leaves : list atom) :
  (forall v k, rec (Leaf v) k = Ok ([KNone], [Leaf v])) ->
  forall (from : nat) (fi : list key) (fv : list obj),
  fold_left (flatten_step rec KNone)
    (combine (seq from (length leaves))
       (map (fun p => Ok (KInt (Z.of_nat (fst p)), snd p))
            (combine (seq from (length leaves)) (map Leaf leaves))))
    (Ok (fi, fv))
  = Ok (fi ++ map (fun i => KStr (str_int (Z.of_nat i))) (seq from (length leaves)),
        fv ++ map Leaf leaves).
Proof.
  intro Hrec. induction leaves as [|x leaves IH]; intros from fi fv.
  - simpl. now rewrite !app_nil_r.
  - cbn [length seq combine map fold_left fst snd].
    rewrite (flatten_step_ok _ _ _ _ _ _ _ _ _ (Hrec x (KInt (Z.of_nat from)))).
    rewrite IH. cbn [map BaseInputs.build_idx].
    now rewrite <- !app_assoc.
Qed.

(** C8, as the code has it.  Flattening a ListInputs whose elements are
    all leaves returns the leaves unchanged and in their order, each
    under the string form of its position; packaged by
    [ListInputs.flatten] they are the elements 0..n-1 of the new view. *)
Theorem flatten_flat_list (s : store) (a : addr) (ts : list pytype)
    (leaves : list atom) (depth : nat) :
  s a = OfList {| li_values := map Leaf leaves; li_types := ts |} ->
  2 <= depth ->
  _flatten depth s (Ref a) KNone =
    Ok (map (fun i => KStr (str_int (Z.of_nat i))) (seq 0 (length leaves)),
        map Leaf leaves) /\
  exists r, ListInputs_flatten depth s (Ref a) = Ok r /\
    li_values r = map Leaf leaves /\
    ListInputs.__len__ r = length leaves /\
    forall i x, nth_error leaves i = Some x ->
      ListInputs.__getitem__ r (KInt (Z.of_nat i)) = Ok (Leaf x).
Proof.
  intros Ha Hd.
  assert (E : _flatten depth s (Ref a) KNone =
    Ok (map (fun i => KStr (str_int (Z.of_nat i))) (seq 0 (length leaves)),
        map Leaf leaves)).
  { destruct depth as [|[|depth]]; try lia.
    rewrite flatten_ref, Ha. cbn [__iter__].
    rewrite list_iter_enumerate. unfold enumerate.
    rewrite !length_map, length_combine, length_seq, length_map, Nat.min_id.
    apply (flatten_loop_leaves _ leaves (flatten_leaf depth s) 0 [] []). }
  split; [exact E|].
  unfold ListInputs_flatten. rewrite E. cbn [bind].
  eexists. split; [reflexivity|]. cbn [ListInputs.__init__ BaseInputs.__init__ li_values].
  split; [reflexivity|]. split.
  - unfold ListInputs.__len__, BaseInputs.__len__. simpl. apply length_map.
  - intros i x Hi. unfold ListInputs.__getitem__. simpl.
    apply list_getitem_nat. rewrite nth_error_map, Hi. reflexivity.
Qed.

Lemma flatten_flat_list_witness :
  _flatten 2 flat_store (Ref 0) KNone =
    Ok ([KStr "0"; KStr "1"], [Leaf (AInt 7); Leaf (AInt 8)]).
Proof.
  apply (flatten_flat_list flat_store 0 [ClsInt; ClsInt] [AInt 7; AInt 8] 2);
    [reflexivity | lia].
Defined.

(** C8, as the specification has it, fails: the entries of a flattened
    [ListInputs([7, 8])] are not under the path [None]. *)
Lemma flat_paths_are_not_none :
  ~ (exists idxs vals,
       _flatten 1000 flat_store (Ref 0) KNone = Ok (idxs, vals) /\
       Forall (fun p => p = KNone) idxs).
Proof.
  intros (idxs & vals & H & F). vm_compute in H.
  injection H as <- <-. inversion F. discriminate.
Qed.

(** ** Cyclic structures *)

Lemma in_enumerate {A : Type} (x : A) (l : list A) :
  In x l -> exists i, In (i, x) (enumerate l).
Proof.
  unfold enumerate. generalize 0 as from.
  induction l as [|y l IH]; intros from H; [contradiction|].
  cbn [length seq combine]. destruct H as [-> | H].
  - exists from. now left.
  - destruct (IH (S from) H) as (i & Hi). exists i. now right.
Qed.

Lemma enumerate_snd {A : Type} (i : nat) (x : A) (l : list A) :
  In (i, x) (enumerate l) -> In x l.
Proof. unfold enumerate. apply in_combine_r. Qed.

(** The exceptions of the lookups. *)
Lemma list_getitem_exn {A : Type} (l : list A) (idx : key) (e : exn) :
  list_getitem l idx = Raise e -> e = IndexError \/ e = TypeError.
Proof.
  unfold list_getitem. destruct idx as [| i |]; intro H;
    try (injection H as <-; now right).
  destruct (_ && _)%bool; [destruct (nth_error _ _)|];
    try discriminate; injection H as <-; now left.
Qed.

Lemma dict_getitem_exn {V : Type} (d : pydict V) (k : key) (e : exn) :
  dict_getitem d k = Raise e -> e = KeyError.
Proof.
  induction d as [|[k' v] d IH]; simpl; intro H.
  - now injection H as <-.
  - destruct (key_eqb k k'); [discriminate | now apply IH].
Qed.

Lemma iter_exn (v : view) (e : exn) :
  In (Raise e) (__iter__ v) -> e <> RecursionError /\ e <> CyclicStructure.
Proof.
  destruct v as [x | x | x | x]; cbn [__iter__];
    intro H; apply in_map_iff in H; destruct H as (idx & H & _).
  - unfold NDInputs.__getitem__, nd_getcol in H.
    destruct (_ && _)%bool; [discriminate|].
    injection H as <-. split; discriminate.
  - unfold DataframeInputs.__getitem__ in H.
    destruct (key_in _ _).
    + unfold df_getitem in H.
      destruct (dict_getitem _ _) eqn:E; [discriminate|].
      apply dict_getitem_exn in E. injection H as <-. subst.
      split; discriminate.
    + unfold df_iloc in H. destruct idx as [| i |];
        try (injection H as <-; split; discriminate).
      destruct (list_getitem _ _); [discriminate|].
      injection H as <-. split; discriminate.
  - unfold DictInputs.__getitem__ in H.
    destruct (key_in _ _).
    + destruct (dict_getitem _ _) eqn:E; [discriminate|].
      apply dict_getitem_exn in E. injection H as <-. subst.
      split; discriminate.
    + destruct (list_getitem _ _) eqn:E; cbn [bind] in H.
      * destruct (dict_getitem _ _) eqn:E'; [discriminate|].
        apply dict_getitem_exn in E'. injection H as <-. subst.
        split; discriminate.
      * apply list_getitem_exn in E. injection H as <-.
        destruct E; subst; split; discriminate.
  - unfold ListInputs.__getitem__ in H.
    destruct (list_getitem _ _) eqn:E; [discriminate|].
    apply list_getitem_exn in E. injection H as <-.
    destruct E; subst; split; discriminate.
Qed.

(** No call of [_flatten] ends with [CyclicStructure], whatever the
    store. *)
Lemma flatten_never_cyclic_structure (depth : nat) (s : store) :
  forall v k, _flatten depth s v k <> Raise CyclicStructure.
Proof.
  induction depth as [|depth IH]; intros v k; [discriminate|].
  destruct v as [x | a]; [discriminate|].
  rewrite flatten_ref.
  assert (Hs : forall t, In t (enumerate (__iter__ (s a))) ->
                 snd t <> Raise CyclicStructure).
  { intros [i st] Ht. apply enumerate_snd in Ht. simpl.
    intros ->. now apply iter_exn in Ht. }
  assert (Hacc : @Ok (list key * list obj) ([], []) <> Raise CyclicStructure)
    by discriminate.
  revert Hs Hacc. generalize (@Ok (list key * list obj) ([], [])).
  induction (enumerate (__iter__ (s a))) as [|t turns IHt]; intros acc Hs Hacc;
    [exact Hacc|].
  cbn [fold_left]. apply IHt.
  - intros t' Ht'. apply Hs. now right.
  - unfold flatten_step. destruct acc as [[fi fv]|e]; cbn [bind];
      [|exact Hacc].
    destruct (snd t) as [[k' v']|e] eqn:Et; cbn [bind].
    + destruct (_flatten depth s v' k') as [[ni nv]|e] eqn:Er; cbn [bind];
        [discriminate|].
      intro Hc. apply (IH v' k'). rewrite Er. injection Hc as ->. reflexivity.
    + intro Hc. apply (Hs t (or_introl eq_refl)). rewrite Et.
      injection Hc as ->. reflexivity.
Qed.

(** The generators of a store in which every DictInputs has the keys of
    its mapping never raise. *)
Lemma keys_from_values_yield (s : store) : keys_from_values s -> all_yield s.
Proof.
  intros H a step Hstep.
  destruct (s a) as [x | x | x | x] eqn:E; cbn [__iter__] in Hstep;
    apply in_map_iff in Hstep; destruct Hstep as (idx & <- & Hidx).
  - apply in_seq in Hidx.
    destruct (nd_getitem_inside x idx) as (v & ->); [lia|]. now eexists.
  - destruct (dataframe_getitem_label x idx Hidx) as (v & ->). now eexists.
  - unfold DictInputs.__getitem__.
    replace (key_in idx (di_keys x)) with true
      by (symmetry; now apply key_in_In).
    rewrite (H a x E) in Hidx.
    destruct (dict_getitem_keys (di_values x) idx Hidx) as (v & ->).
    now eexists.
  - apply in_seq in Hidx.
    destruct (list_getitem_position x idx) as (v & ->); [lia|]. now eexists.
Qed.

Section NoGuard.

Variable s : store.
Hypothesis steps_yield : all_yield s.

(** With generators that never raise, the only exception is the one of
    the recursion limit. *)
Lemma flatten_loop_ok_or_limit rec idx turns :
  (forall v k, (exists r, rec v k = Ok r) \/ rec v k = Raise RecursionError) ->
  (forall t, In t turns -> exists p, snd t = Ok p) ->
  forall acc,
    (exists r, acc = Ok r) \/ acc = Raise RecursionError ->
    (exists r, fold_left (flatten_step rec idx) turns acc = Ok r) \/
    fold_left (flatten_step rec idx) turns acc = Raise RecursionError.
Proof.
  intros Hrec. induction turns as [|t turns IH]; intros Ht acc Hacc;
    [exact Hacc|].
  cbn [fold_left]. apply IH.
  - intros t' Ht'. apply Ht. now right.
  - destruct Hacc as [([fi fv] & ->) | ->]; [|now right].
    destruct (Ht t (or_introl eq_refl)) as ([k v] & Et).
    unfold flatten_step. rewrite Et. cbn [bind].
    destruct (Hrec v k) as [([ni nv] & ->) | ->]; cbn [bind]; eauto.
Qed.

Lemma turns_yield (a : addr) :
  forall t, In t (enumerate (__iter__ (s a))) -> exists p, snd t = Ok p.
Proof.
  intros [i st] Ht. apply enumerate_snd in Ht.
  exact (steps_yield a st Ht).
Qed.

Lemma flatten_ok_or_limit (depth : nat) :
  forall v k,
    (exists r, _flatten depth s v k = Ok r) \/
    _flatten depth s v k = Raise RecursionError.
Proof.
  induction depth as [|depth IH]; intros v k; [now right|].
  destruct v as [x | a]; [left; now eexists|].
  rewrite flatten_ref.
  apply flatten_loop_ok_or_limit;
    [exact IH | apply turns_yield | left; now eexists].
Qed.

(** A loop that reaches an element whose flattening hits the recursion
    limit ends with [RecursionError]. *)
Lemma flatten_loop_limit rec idx turns (i : nat) (k : key) (v : obj) :
  (forall v k, (exists r, rec v k = Ok r) \/ rec v k = Raise RecursionError) ->
  (forall t, In t turns -> exists p, snd t = Ok p) ->
  In (i, Ok (k, v)) turns ->
  rec v k = Raise RecursionError ->
  forall acc,
    (exists r, acc = Ok r) \/ acc = Raise RecursionError ->
    fold_left (flatten_step rec idx) turns acc = Raise RecursionError.
Proof.
  intros Hrec. induction turns as [|t turns IH]; intros Ht Hin Hv acc Hacc;
    [contradiction|].
  cbn [fold_left].
  destruct Hacc as [([fi fv] & ->) | ->];
    [|cbn [flatten_step bind]; apply flatten_loop_raise].
  destruct Hin as [-> | Hin].
  - unfold flatten_step at 2. cbn [snd bind]. rewrite Hv. cbn [bind].
    apply flatten_loop_raise.
  - apply IH; try assumption.
    + intros t' Ht'. apply Ht. now right.
    + destruct (Ht t (or_introl eq_refl)) as ([k' v'] & Et).
      unfold flatten_step. rewrite Et. cbn [bind].
      destruct (Hrec v' k') as [([ni nv] & ->) | ->]; cbn [bind]; eauto.
Qed.

Lemma cyclic_element (a : addr) :
  cyclic s a -> exists b, element s a b /\ cyclic s b.
Proof.
  unfold cyclic. intro H. apply clos_trans_t1n in H.
  inversion H as [y Hy | y z Hy Hz]; subst.
  - exists a. split; [assumption | now apply t_step].
  - exists y. split; [assumption|].
    apply clos_t1n_trans in Hz.
    eapply t_trans; [exact Hz | now apply t_step].
Qed.

Lemma flatten_cyclic_limit (depth : nat) :
  forall a idx, cyclic s a ->
    _flatten depth s (Ref a) idx = Raise RecursionError.
Proof.
  induction depth as [|depth IH]; intros a idx Hc; [reflexivity|].
  destruct (cyclic_element a Hc) as (b & (k & Hb) & Hcb).
  destruct (in_enumerate _ _ Hb) as (i & Hi).
  rewrite flatten_ref.
  apply (flatten_loop_limit _ idx _ i k (Ref b)); try assumption.
  - apply flatten_ok_or_limit.
  - apply turns_yield.
  - now apply IH.
  - left. now eexists.
Qed.

End NoGuard.

Lemma cyclic_store_yields : all_yield cyclic_store.
Proof.
  intros [|a] step H; simpl in H.
  - destruct H as [<- | []]. now eexists.
  - destruct H.
Defined.

Lemma cyclic_store_cyclic : cyclic cyclic_store 0.
Proof.
  apply t_step. exists (KInt 0). simpl. now left.
Defined.

(** C9, as the code has it.  There is no cycle guard: when a view
    contains itself, directly or through other views, and the generators
    of the store never raise, flattening it returns no result however
    deep the interpreter lets it recurse, and ends with the
    [RecursionError] of the recursion limit. *)
Theorem flatten_cyclic_recursion_error (s : store) (a : addr) (idx : key)
    (depth : nat) :
  all_yield s -> cyclic s a ->
  _flatten depth s (Ref a) idx = Raise RecursionError.
Proof.
  intros Hy Hc. now apply flatten_cyclic_limit.
Qed.

Lemma flatten_cyclic_recursion_error_witness :
  _flatten 1000 cyclic_store (Ref 0) KNone = Raise RecursionError.
Proof.
  apply (flatten_cyclic_recursion_error cyclic_store 0 KNone 1000
           cyclic_store_yields cyclic_store_cyclic).
Defined.

(** C9, as the specification has it, fails: flattening the view that is
    its own element does not raise [CyclicStructure]; with the default
    recursion limit of 1000 it raises [RecursionError]. *)
Lemma cyclic_flatten_is_not_guarded :
  _flatten 1000 cyclic_store (Ref 0) KNone <> Raise CyclicStructure /\
  ListInputs_flatten 1000 cyclic_store (Ref 0) = Raise RecursionError /\
  DictInputs_flatten 1000 cyclic_store (Ref 0) = Raise RecursionError.
Proof.
  repeat split; [|vm_compute; reflexivity ..].
  intro H. vm_compute in H. discriminate.
Qed.

(** * Further properties of the code *)

(** ** The shape of what [_flatten] returns *)

(** A property of the accumulated lists that every turn of the loop keeps
    holds of what the loop returns. *)
Lemma flatten_loop_invariant (P : list key * list obj -> Prop) rec idx turns :
  (forall fi fv i k v ni nv,
      P (fi, fv) -> rec v k = Ok (ni, nv) ->
      P (fi ++ map (BaseInputs.build_idx (Z.of_nat i) idx) ni, fv ++ nv)) ->
  forall acc r,
    (forall x, acc = Ok x -> P x) ->
    fold_left (flatten_step rec idx) turns acc = Ok r -> P r.
Proof.
  intro Hstep. induction turns as [|[i st] turns IH]; intros acc r Hacc Hr.
  - now apply Hacc.
  - cbn [fold_left] in Hr. apply (IH _ r) in Hr; [exact Hr|].
    intros x Hx. unfold flatten_step in Hx.
    destruct acc as [[fi fv]|e]; [|discriminate]. cbn [bind snd fst] in Hx.
    destruct st as [[k v]|e]; [|discriminate]. cbn [bind] in Hx.
    destruct (rec v k) as [[ni nv]|e] eqn:Er; [|discriminate]. cbn [bind] in Hx.
    injection Hx as <-. apply (Hstep _ _ _ k v); [now apply Hacc | exact Er].
Qed.

Lemma flatten_lengths (depth : nat) (s : store) :
  forall v k idxs vals,
    _flatten depth s v k = Ok (idxs, vals) -> length idxs = length vals.
Proof.
  induction depth as [|depth IH]; intros v k idxs vals H; [discriminate|].
  destruct v as [x | a].
  - injection H as <- <-. reflexivity.
  - rewrite flatten_ref in H.
    apply (flatten_loop_invariant
             (fun r => length (fst r) = length (snd r))) in H; [exact H | |].
    + intros fi fv i k' v' ni nv Hp Hr. cbn [fst snd] in *.
      rewrite !length_app, length_map, Hp. f_equal. exact (IH _ _ _ _ Hr).
    + intros x Hx. injection Hx as <-. reflexivity.
Qed.

Lemma flatten_leaves (depth : nat) (s : store) :
  forall v k idxs vals,
    _flatten depth s v k = Ok (idxs, vals) -> Forall is_leaf vals.
Proof.
  induction depth as [|depth IH]; intros v k idxs vals H; [discriminate|].
  destruct v as [x | a].
  - injection H as <- <-. constructor; [now exists x | constructor].
  - rewrite flatten_ref in H.
    apply (flatten_loop_invariant (fun r => Forall is_leaf (snd r))) in H;
      [exact H | |].
    + intros fi fv i k' v' ni nv Hp Hr. cbn [fst snd] in *.
      apply Forall_app. split; [exact Hp | exact (IH _ _ _ _ Hr)].
    + intros x Hx. injection Hx as <-. constructor.
Qed.

Lemma build_idx_is_str (i : Z) (idx q : key) :
  q = KNone \/ is_str q -> is_str (BaseInputs.build_idx i idx q).
Proof.
  intros [-> | (t & ->)]; destruct idx; simpl; eexists; reflexivity.
Qed.

Lemma flatten_paths (depth : nat) (s : store) :
  forall v k idxs vals,
    _flatten depth s v k = Ok (idxs, vals) ->
    match v with
    | Leaf _ => idxs = [KNone]
    | Ref _ => Forall is_str idxs
    end.
Proof.
  induction depth as [|depth IH]; intros v k idxs vals H; [discriminate|].
  destruct v as [x | a].
  - now injection H as <- <-.
  - rewrite flatten_ref in H.
    apply (flatten_loop_invariant (fun r => Forall is_str (fst r))) in H;
      [exact H | |].
    + intros fi fv i k' v' ni nv Hp Hr. cbn [fst snd] in *.
      apply Forall_app. split; [exact Hp|].
      apply Forall_map. specialize (IH _ _ _ _ Hr).
      destruct v' as [x | b].
      * subst ni. constructor; [|constructor].
        apply build_idx_is_str. now left.
      * eapply Forall_impl; [|exact IH].
        intros q Hq. apply build_idx_is_str. now right.
    + intros x Hx. injection Hx as <-. constructor.
Qed.

(** X1.  The two lists [_flatten] returns have the same length: paths and
    values are index-aligned. *)
Theorem flatten_aligned (depth : nat) (s : store) (v : obj) (idx : key)
    (idxs : list key) (vals : list obj) :
  _flatten depth s v idx = Ok (idxs, vals) -> length idxs = length vals.
Proof. apply flatten_lengths. Qed.

Lemma flatten_aligned_witness : length [KStr "0_0"; KStr "0_1"; KStr "1_0"; KStr "1_1"]
  = length [Leaf (AInt 10); Leaf (AInt 11); Leaf (AInt 20); Leaf (AInt 21)].
Proof.
  apply (flatten_aligned 3 nested_store (Ref 0) KNone). reflexivity.
Defined.

(** X2.  Every value [_flatten] returns is a leaf: no input view is left
    in the flattened values, however deep the nesting. *)
Theorem flatten_values_are_leaves (depth : nat) (s : store) (v : obj)
    (idx : key) (idxs : list key) (vals : list obj) :
  _flatten depth s v idx = Ok (idxs, vals) -> Forall is_leaf vals.
Proof. apply flatten_leaves. Qed.

Lemma flatten_values_are_leaves_witness :
  Forall is_leaf [Leaf (AInt 10); Leaf (AInt 11); Leaf (AInt 20); Leaf (AInt 21)].
Proof.
  apply (flatten_values_are_leaves 3 nested_store (Ref 0) KNone
           [KStr "0_0"; KStr "0_1"; KStr "1_0"; KStr "1_1"]).
  reflexivity.
Defined.

(** X3.  Every path [_flatten] returns for a view is a string, whatever
    the keys of the views are; [None] is the path only when the value
    flattened is itself a leaf. *)
Theorem flatten_paths_are_strings (depth : nat) (s : store) (a : addr)
    (idx : key) (idxs : list key) (vals : list obj) :
  _flatten depth s (Ref a) idx = Ok (idxs, vals) -> Forall is_str idxs.
Proof. apply (flatten_paths depth s (Ref a)). Qed.

Lemma flatten_paths_are_strings_witness :
  Forall is_str [KStr "0_0"; KStr "0_1"; KStr "1_0"; KStr "1_1"].
Proof.
  apply (flatten_paths_are_strings 3 nested_store 0 KNone _
           [Leaf (AInt 10); Leaf (AInt 11); Leaf (AInt 20); Leaf (AInt 21)]).
  reflexivity.
Defined.

(** ** The index a view is flattened under *)

Lemma build_idx_prefixed (i : Z) (idx q : key) :
  idx <> KNone ->
  BaseInputs.build_idx i idx q = prefixed idx (BaseInputs.build_idx i KNone q).
Proof.
  intro H. destruct idx; [contradiction | |]; destruct q; reflexivity.
Qed.

(** [lift_prefix idx r] is [r] with every path behind the prefix. *)
Lemma flatten_loop_prefixed rec idx turns :
  idx <> KNone ->
  forall acc,
    fold_left (flatten_step rec idx) turns
      (match acc with
       | Ok (p, v) => Ok (map (prefixed idx) p, v)
       | Raise e => Raise e
       end)
    = match fold_left (flatten_step rec KNone) turns acc with
      | Ok (p, v) => Ok (map (prefixed idx) p, v)
      | Raise e => Raise e
      end.
Proof.
  intro Hidx. induction turns as [|[i st] turns IH]; intro acc; [reflexivity|].
  cbn [fold_left]. rewrite <- IH. f_equal.
  unfold flatten_step. destruct acc as [[fi fv]|e]; [|reflexivity].
  cbn [bind snd fst]. destruct st as [[k v]|e]; [|reflexivity].
  cbn [bind]. destruct (rec v k) as [[ni nv]|e]; [|reflexivity].
  cbn [bind]. rewrite map_app, map_map. do 3 f_equal.
  apply map_ext. intro q. now apply build_idx_prefixed.
Qed.

(** X4.  The index under which a view is flattened only goes in front of
    its paths: flattened under [idx], a view gives the values it gives
    from the top, each under ["{idx}_{path}"], and the exception it raises
    from the top if it raises one. *)
Theorem flatten_under_index (depth : nat) (s : store) (a : addr) (idx : key) :
  idx <> KNone ->
  _flatten depth s (Ref a) idx =
  match _flatten depth s (Ref a) KNone with
  | Ok (p, v) => Ok (map (prefixed idx) p, v)
  | Raise e => Raise e
  end.
Proof.
  intro H. destruct depth as [|depth]; [reflexivity|].
  rewrite !flatten_ref.
  exact (flatten_loop_prefixed _ idx _ H (Ok ([], []))).
Qed.

Lemma flatten_under_index_witness :
  _flatten 2 nested_store (Ref 1) (KStr "in") =
  Ok ([KStr "in_0"; KStr "in_1"], [Leaf (AInt 10); Leaf (AInt 11)]).
Proof.
  rewrite (flatten_under_index 2 nested_store 1 (KStr "in")); [reflexivity|].
  discriminate.
Defined.

(** ** Recursion depth *)

Lemma flatten_loop_deeper rec rec' idx turns :
  (forall v k r, rec v k = Ok r -> rec' v k = Ok r) ->
  forall acc r,
    fold_left (flatten_step rec idx) turns acc = Ok r ->
    fold_left (flatten_step rec' idx) turns acc = Ok r.
Proof.
  intro Hrec. induction turns as [|[i st] turns IH]; intros acc r H;
    [exact H|].
  cbn [fold_left] in *.
  destruct (flatten_step rec idx acc (i, st)) as [x|e] eqn:E;
    [|rewrite flatten_loop_raise in H; discriminate].
  assert (E' : flatten_step rec' idx acc (i, st) = Ok x).
  { unfold flatten_step in *. destruct acc as [[fi fv]|e]; [|discriminate].
    cbn [bind snd fst] in *. destruct st as [[k v]|e]; [|discriminate].
    cbn [bind] in *. destruct (rec v k) as [[ni nv]|e] eqn:Er; [|discriminate].
    rewrite (Hrec _ _ _ Er). exact E. }
  rewrite E'. now apply IH.
Qed.

Lemma flatten_monotone (depth : nat) (s : store) :
  forall depth' v k r,
    _flatten depth s v k = Ok r -> depth <= depth' ->
    _flatten depth' s v k = Ok r.
Proof.
  induction depth as [|depth IH]; intros depth' v k r H Hd; [discriminate|].
  destruct depth' as [|depth']; [lia|].
  destruct v as [x | a]; [exact H|].
  rewrite flatten_ref in *.
  apply (flatten_loop_deeper (_flatten depth s)); [|exact H].
  intros v' k' r' Hr. apply IH; [exact Hr | lia].
Qed.

(** X5.  What [_flatten] returns does not depend on how deep the
    interpreter lets it recurse: a result returned within some depth is
    the result within every larger depth. *)
Theorem flatten_deeper (depth depth' : nat) (s : store) (v : obj) (idx : key)
    (r : list key * list obj) :
  _flatten depth s v idx = Ok r -> depth <= depth' ->
  _flatten depth' s v idx = Ok r.
Proof. intros H Hd. now apply (flatten_monotone depth s). Qed.

Lemma flatten_deeper_witness :
  _flatten 1000 nested_store (Ref 0) KNone =
  Ok ([KStr "0_0"; KStr "0_1"; KStr "1_0"; KStr "1_1"],
      [Leaf (AInt 10); Leaf (AInt 11); Leaf (AInt 20); Leaf (AInt 21)]).
Proof.
  apply (flatten_deeper 3 1000 nested_store (Ref 0) KNone); [reflexivity | lia].
Defined.

Lemma flatten_loop_ok rec idx turns :
  (forall t, In t turns ->
     exists k v r, snd t = Ok (k, v) /\ rec v k = Ok r) ->
  forall x, exists r, fold_left (flatten_step rec idx) turns (Ok x) = Ok r.
Proof.
  induction turns as [|[i st] turns IH]; intros Ht x; [now eexists|].
  cbn [fold_left].
  destruct (Ht (i, st) (or_introl eq_refl)) as (k & v & [ni nv] & Est & Er).
  cbn [snd] in Est. subst st. destruct x as [fi fv].
  rewrite (flatten_step_ok _ _ _ _ _ _ _ _ _ Er).
  apply IH. intros t Hin. apply Ht. now right.
Qed.

(** One depth is enough for all the elements of a view whose elements
    each have a depth that is enough. *)
Lemma elements_bound (s : store) (steps : list (result (key * obj))) :
  (forall st, In st steps -> exists k v, st = Ok (k, v) /\
     exists d, forall d' idx, d <= d' -> exists r, _flatten d' s v idx = Ok r) ->
  exists d, forall k v, In (Ok (k, v)) steps ->
    forall d' idx, d <= d' -> exists r, _flatten d' s v idx = Ok r.
Proof.
  induction steps as [|st steps IH]; intro H.
  - exists 0. intros k v [].
  - destruct IH as (d1 & H1); [intros st' Hin; apply H; now right|].
    destruct (H st (or_introl eq_refl)) as (k0 & v0 & -> & d2 & H2).
    exists (Nat.max d1 d2). intros k v [E | Hin] d' idx Hd.
    + injection E as <- <-. apply H2. lia.
    + apply (H1 k v Hin). lia.
Qed.

Lemma flatten_well_founded (s : store) (a : addr) :
  all_yield s -> Acc (contained s) a ->
  exists depth, forall depth' idx, depth <= depth' ->
    exists r, _flatten depth' s (Ref a) idx = Ok r.
Proof.
  intros Hy Hacc. induction Hacc as [a _ IH].
  destruct (elements_bound s (__iter__ (s a))) as (d & Hd).
  { intros st Hin. destruct (Hy a st Hin) as ([k v] & ->).
    exists k, v. split; [reflexivity|].
    destruct v as [x | b].
    - exists 1. intros d' idx Hd'. destruct d' as [|d']; [lia|]. now eexists.
    - apply IH. now exists k. }
  exists (S d). intros depth' idx Hdepth.
  destruct depth' as [|depth']; [lia|].
  rewrite flatten_ref. apply flatten_loop_ok.
  intros [i st] Hin. apply enumerate_snd in Hin. cbn [snd].
  destruct (Hy a st Hin) as ([k v] & ->).
  destruct (Hd k v Hin depth' k) as (r & Hr); [lia|].
  now exists k, v, r.
Qed.

Lemma nested_store_yields : all_yield nested_store.
Proof.
  intros [|[|[|a]]] step H; simpl in H;
    repeat (destruct H as [<- | H]; [now eexists|]); destruct H.
Qed.

Lemma nested_store_well_founded : Acc (contained nested_store) 0.
Proof.
  assert (H1 : forall b, b = 1 \/ b = 2 -> Acc (contained nested_store) b).
  { intros b Hb. constructor. intros c (k & Hin).
    destruct Hb as [-> | ->]; simpl in Hin;
      repeat (destruct Hin as [Hin | Hin]; [discriminate|]); destruct Hin. }
  constructor. intros b (k & Hin). apply H1. simpl in Hin.
  destruct Hin as [E | [E | []]]; injection E as _ <-; auto.
Qed.

(** X6.  Flattening returns for every view that contains no endless
    descent of views within views (in a store whose generators never
    raise): some recursion depth is enough, and so is every larger one. *)
Theorem flatten_returns_when_well_founded (s : store) (a : addr) :
  all_yield s -> Acc (contained s) a ->
  exists depth, forall depth' idx, depth <= depth' ->
    exists r, _flatten depth' s (Ref a) idx = Ok r.
Proof. apply flatten_well_founded. Qed.

Lemma flatten_returns_when_well_founded_witness :
  exists depth, forall depth' idx, depth <= depth' ->
    exists r, _flatten depth' nested_store (Ref 0) idx = Ok r.
Proof.
  apply (flatten_returns_when_well_founded nested_store 0
           nested_store_yields nested_store_well_founded).
Defined.

(** X7.  In a store where the list of keys of every DictInputs is the
    list of keys of its mapping (as the initialiser makes it), [_flatten]
    either returns or ends with the [RecursionError] of the recursion
    limit: no lookup made while flattening raises. *)
Theorem flatten_raises_only_at_the_limit (s : store) (depth : nat) (v : obj)
    (idx : key) :
  keys_from_values s ->
  (exists r, _flatten depth s v idx = Ok r) \/
  _flatten depth s v idx = Raise RecursionError.
Proof.
  intro H. apply flatten_ok_or_limit. now apply keys_from_values_yield.
Qed.

Lemma nested_store_keys : keys_from_values nested_store.
Proof.
  intros [|[|[|a]]] x H; discriminate.
Qed.

Lemma flatten_raises_only_at_the_limit_witness :
  (exists r, _flatten 2 nested_store (Ref 0) KNone = Ok r) \/
  _flatten 2 nested_store (Ref 0) KNone = Raise RecursionError.
Proof.
  apply (flatten_raises_only_at_the_limit nested_store 2 (Ref 0) KNone
           nested_store_keys).
Defined.

(** ** Views of leaves *)

Lemma enumerate_from_map {A B : Type} (f : A -> B) (l : list A) (from : nat) :
  combine (seq from (length (map f l))) (map f l)
  = map (fun ix => (fst ix, f (snd ix))) (combine (seq from (length l)) l).
Proof.
  revert from. induction l as [|x l IH]; intro from; [reflexivity|].
  cbn [map length seq combine fst snd]. f_equal. apply IH.
Qed.

Lemma flatten_loop_flat rec (items : list (key * atom)) :
  (forall v k, rec (Leaf v) k = Ok ([KNone], [Leaf v])) ->
  forall (from : nat) (fi : list key) (fv : list obj),
  fold_left (flatten_step rec KNone)
    (combine (seq from (length items))
       (map (fun kx => Ok (fst kx, Leaf (snd kx))) items))
    (Ok (fi, fv))
  = Ok (fi ++ map position_path (seq from (length items)),
        fv ++ map (fun kx => Leaf (snd kx)) items).
Proof.
  intro Hrec. induction items as [|[k x] items IH]; intros from fi fv.
  - simpl. now rewrite !app_nil_r.
  - cbn [length seq combine map fold_left fst snd].
    rewrite (flatten_step_ok _ _ _ _ _ _ _ _ _ (Hrec x k)).
    rewrite IH. cbn [map BaseInputs.build_idx].
    now rewrite <- !app_assoc.
Qed.

Lemma flatten_flat (s : store) (a : addr) (items : list (key * atom))
    (depth : nat) :
  __iter__ (s a) = map (fun kx => Ok (fst kx, Leaf (snd kx))) items ->
  2 <= depth ->
  _flatten depth s (Ref a) KNone =
  Ok (map position_path (seq 0 (length items)),
      map (fun kx => Leaf (snd kx)) items).
Proof.
  intros Ha Hd. destruct depth as [|[|depth]]; try lia.
  rewrite flatten_ref, Ha. unfold enumerate. rewrite length_map.
  apply (flatten_loop_flat _ items (flatten_leaf depth s) 0 [] []).
Qed.

(** X8.  A view of any class whose elements are all leaves flattens, from
    the top, to its leaves in the order of its iteration, each under the
    string form of its position: the keys or labels the view yields are
    not used, so a mapping or a frame loses its names. *)
Theorem flatten_flat_view (s : store) (a : addr) (items : list (key * atom))
    (depth : nat) :
  __iter__ (s a) = map (fun kx => Ok (fst kx, Leaf (snd kx))) items ->
  2 <= depth ->
  _flatten depth s (Ref a) KNone =
  Ok (map position_path (seq 0 (length items)),
      map (fun kx => Leaf (snd kx)) items).
Proof. apply flatten_flat. Qed.

Lemma flatten_flat_view_witness :
  _flatten 2 dict_store (Ref 0) KNone =
  Ok ([KStr "0"; KStr "1"], [Leaf (AInt 1); Leaf (AInt 2)]).
Proof.
  apply (flatten_flat_view dict_store 0 [(KStr "a", AInt 1); (KStr "b", AInt 2)] 2);
    [reflexivity | lia].
Defined.

(** ** Flattening from the top, element by element *)

Lemma build_idx_top_str (i : Z) (q : key) :
  is_str q -> BaseInputs.build_idx i KNone q = q.
Proof. intros (t & ->). reflexivity. Qed.

Lemma build_idx_top_strs (i : Z) (l : list key) :
  Forall is_str l -> map (BaseInputs.build_idx i KNone) l = l.
Proof.
  induction 1 as [|q l Hq _ IH]; [reflexivity|].
  cbn [map]. now rewrite IH, build_idx_top_str.
Qed.

Lemma flatten_loop_gather (depth : nat) (s : store) :
  forall (turns : list (nat * (key * obj))) (fi : list key) (fv : list obj),
  fold_left (flatten_step (_flatten (S depth) s) KNone)
    (map (fun ix => (fst ix, Ok (snd ix))) turns) (Ok (fi, fv))
  = ('(ps, vs) <- gather (map (top_part depth s) turns) ;;
     Ok (fi ++ ps, fv ++ vs)).
Proof.
  induction turns as [|[i [k v]] turns IH]; intros fi fv.
  - simpl. now rewrite !app_nil_r.
  - cbn [map fold_left fst snd gather]. unfold top_part at 1. cbn [fst snd].
    destruct v as [x | b].
    + rewrite (flatten_step_ok _ _ _ _ _ _ _ _ _ (flatten_leaf depth s x k)).
      rewrite IH. cbn [bind map BaseInputs.build_idx].
      destruct (gather (map (top_part depth s) turns)) as [[ps vs]|e];
        [|reflexivity].
      cbn [bind]. now rewrite <- !app_assoc.
    + destruct (_flatten (S depth) s (Ref b) k) as [[ni nv]|e] eqn:Er.
      * rewrite (flatten_step_ok _ _ _ _ _ _ _ _ _ Er).
        assert (Hni : map (BaseInputs.build_idx (Z.of_nat i) KNone) ni = ni).
        { apply build_idx_top_strs. exact (flatten_paths _ _ _ _ _ _ Er). }
        rewrite Hni, IH. cbn [bind].
        destruct (gather (map (top_part depth s) turns)) as [[ps vs]|e];
          [|reflexivity].
        cbn [bind]. now rewrite <- !app_assoc.
      * unfold flatten_step at 2. cbn [bind snd]. rewrite Er. cbn [bind].
        apply flatten_loop_raise.
Qed.

(** X9.  Flattened from the top, a view whose generator yields the pairs
    [kvs] gives, from left to right, for every element that is a leaf the
    leaf under the string form of its position, and for every element
    that is a view what that view gives when flattened under the index it
    was yielded with, paths unchanged; the first element that raises ends
    the call with its exception. *)
Theorem flatten_from_the_top (depth : nat) (s : store) (a : addr)
    (kvs : list (key * obj)) :
  __iter__ (s a) = map Ok kvs ->
  _flatten (S (S depth)) s (Ref a) KNone
  = gather (map (top_part depth s) (enumerate kvs)).
Proof.
  intro Ha. rewrite flatten_ref, Ha. unfold enumerate.
  rewrite (enumerate_from_map Ok kvs 0).
  rewrite (flatten_loop_gather depth s _ [] []).
  destruct (gather _) as [[ps vs]|e]; reflexivity.
Qed.

Lemma flatten_from_the_top_witness :
  _flatten 3 nested_store (Ref 0) KNone
  = gather [_flatten 2 nested_store (Ref 1) (KInt 0);
            _flatten 2 nested_store (Ref 2) (KInt 1)].
Proof.
  apply (flatten_from_the_top 1 nested_store 0 [(KInt 0, Ref 1); (KInt 1, Ref 2)]).
  reflexivity.
Defined.

(** X10.  Flattening a value that is not a view does not raise: it gives
    the one leaf under the path [None], so [ListInputs.flatten] returns a
    view of that one element and [DictInputs.flatten] a mapping whose
    only key is [None]. *)
Theorem flatten_of_a_leaf (s : store) (v : atom) (depth : nat) :
  1 <= depth ->
  ListInputs_flatten depth s (Leaf v) =
    Ok {| li_values := [Leaf v]; li_types := [type_of_atom v] |} /\
  DictInputs_flatten depth s (Leaf v) =
    Ok {| di_values := [(KNone, Leaf v)]; di_keys := [KNone];
          di_types := [type_of_atom v] |} /\
  (forall r, DictInputs_flatten depth s (Leaf v) = Ok r ->
     DictInputs.__getitem__ r KNone = Ok (Leaf v)).
Proof.
  intro H. destruct depth as [|depth]; [lia|].
  repeat split. intros r Hr. injection Hr as <-. reflexivity.
Qed.

Lemma flatten_of_a_leaf_witness :
  ListInputs_flatten 1 nested_store (Leaf (AStr "x")) =
    Ok {| li_values := [Leaf (AStr "x")]; li_types := [ClsStr] |}.
Proof.
  apply (flatten_of_a_leaf nested_store (AStr "x") 1). lia.
Defined.

(** ** Packaging the flattened lists *)

Lemma dict_setitem_new {V : Type} (d : pydict V) (k : key) (v : V) :
  ~ In k (dict_keys d) -> dict_setitem d k v = d ++ [(k, v)].
Proof.
  induction d as [|[k' v'] d IH]; simpl; [reflexivity|].
  intro H. destruct (key_eqb k k') eqn:E.
  - apply key_eqb_eq in E. subst. tauto.
  - f_equal. apply IH. tauto.
Qed.

Lemma dict_fold_nodup {V : Type} (items d : pydict V) :
  NoDup (dict_keys d ++ dict_keys items) ->
  fold_left (fun d kv => dict_setitem d (fst kv) (snd kv)) items d = d ++ items.
Proof.
  revert d. induction items as [|[k v] items IH]; intros d H; simpl.
  - now rewrite app_nil_r.
  - simpl in H. apply NoDup_remove in H as H'. destruct H' as [_ H2].
    rewrite dict_setitem_new by (intro Hin; apply H2, in_or_app; now left).
    rewrite IH; [now rewrite <- app_assoc|].
    unfold dict_keys in *. rewrite map_app, <- app_assoc. exact H.
Qed.

Lemma dict_of_items_nodup {V : Type} (items : list (key * V)) :
  NoDup (dict_keys items) -> dict_of_items items = items.
Proof. intro H. exact (dict_fold_nodup items [] H). Qed.

Lemma dict_getitem_nodup {V : Type} (d : pydict V) (k : key) (v : V) :
  NoDup (dict_keys d) -> In (k, v) d -> dict_getitem d k = Ok v.
Proof.
  induction d as [|[k' v'] d IH]; simpl; [contradiction|].
  intros Hnd [E | Hin].
  - injection E as -> ->. now rewrite key_eqb_refl.
  - inversion Hnd as [|? ? Hk Hnd']; subst.
    destruct (key_eqb k k') eqn:E; [|now apply IH].
    apply key_eqb_eq in E. subst. exfalso. apply Hk.
    unfold dict_keys. apply in_map_iff. now exists (k', v).
Qed.

Lemma nth_error_combine {A B : Type} (l : list A) (l' : list B) (i : nat)
    (x : A) (y : B) :
  nth_error l i = Some x -> nth_error l' i = Some y ->
  nth_error (combine l l') i = Some (x, y).
Proof.
  revert l' i. induction l as [|a l IH]; intros [|b l'] [|i] Hx Hy;
    try discriminate.
  - simpl in *. congruence.
  - simpl in *. now apply IH.
Qed.

Lemma combine_fst {A B : Type} (l : list A) (l' : list B) :
  length l = length l' -> map fst (combine l l') = l.
Proof.
  revert l'. induction l as [|a l IH]; intros [|b l'] H; try discriminate;
    [reflexivity|].
  simpl. f_equal. apply IH. now injection H.
Qed.

Lemma combine_snd {A B : Type} (l : list A) (l' : list B) :
  length l = length l' -> map snd (combine l l') = l'.
Proof.
  revert l'. induction l as [|a l IH]; intros [|b l'] H; try discriminate;
    [reflexivity|].
  simpl. f_equal. apply IH. now injection H.
Qed.

Lemma dict_flatten_distinct (depth : nat) (s : store) (o : obj)
    (idxs : list key) (vals : list obj) :
  _flatten depth s o KNone = Ok (idxs, vals) -> NoDup idxs ->
  exists r, DictInputs_flatten depth s o = Ok r /\
    di_values r = combine idxs vals /\
    di_keys r = idxs /\
    dict_values (di_values r) = vals /\
    DictInputs.__len__ r = length vals /\
    forall i p x, nth_error idxs i = Some p -> nth_error vals i = Some x ->
      DictInputs.__getitem__ r p = Ok x.
Proof.
  intros H Hnd. pose proof (flatten_lengths _ _ _ _ _ _ H) as Hlen.
  unfold DictInputs_flatten. rewrite H. cbn [bind].
  eexists. split; [reflexivity|].
  assert (Hk : dict_keys (combine idxs vals) = idxs) by now apply combine_fst.
  assert (E : dict_of_items (combine idxs vals) = combine idxs vals)
    by (apply dict_of_items_nodup; now rewrite Hk).
  unfold DictInputs.__init__, DictInputs.__len__, BaseInputs.__len__, frozendict.
  cbn [di_values di_keys]. rewrite E, Hk.
  repeat split.
  - now apply combine_snd.
  - rewrite length_combine. lia.
  - intros i p x Hp Hx. unfold DictInputs.__getitem__. cbn [di_values di_keys].
    replace (key_in p idxs) with true
      by (symmetry; apply key_in_In; eapply nth_error_In; eassumption).
    apply dict_getitem_nodup; [now rewrite Hk|].
    eapply nth_error_In. now apply nth_error_combine; eassumption.
Qed.

(** X11.  When the flattened paths are pairwise distinct,
    [DictInputs.flatten] keeps every leaf: the new mapping has the paths
    as keys and the leaves as values, both in flattening order, its
    length is the number of leaves, and looking up a path returns the
    leaf flattened under it. *)
Theorem dict_flatten_keeps_distinct_paths (depth : nat) (s : store) (o : obj)
    (idxs : list key) (vals : list obj) :
  _flatten depth s o KNone = Ok (idxs, vals) -> NoDup idxs ->
  exists r, DictInputs_flatten depth s o = Ok r /\
    di_values r = combine idxs vals /\
    di_keys r = idxs /\
    dict_values (di_values r) = vals /\
    DictInputs.__len__ r = length vals /\
    forall i p x, nth_error idxs i = Some p -> nth_error vals i = Some x ->
      DictInputs.__getitem__ r p = Ok x.
Proof. apply dict_flatten_distinct. Qed.

Lemma four_paths_distinct :
  NoDup [KStr "0_0"; KStr "0_1"; KStr "1_0"; KStr "1_1"].
Proof.
  repeat constructor; simpl; intuition discriminate.
Qed.

Lemma dict_flatten_keeps_distinct_paths_witness :
  exists r, DictInputs_flatten 3 nested_store (Ref 0) = Ok r /\
    di_values r =
      combine [KStr "0_0"; KStr "0_1"; KStr "1_0"; KStr "1_1"]
              [Leaf (AInt 10); Leaf (AInt 11); Leaf (AInt 20); Leaf (AInt 21)] /\
    di_keys r = [KStr "0_0"; KStr "0_1"; KStr "1_0"; KStr "1_1"] /\
    dict_values (di_values r) =
      [Leaf (AInt 10); Leaf (AInt 11); Leaf (AInt 20); Leaf (AInt 21)] /\
    DictInputs.__len__ r = 4 /\
    forall i p x,
      nth_error [KStr "0_0"; KStr "0_1"; KStr "1_0"; KStr "1_1"] i = Some p ->
      nth_error [Leaf (AInt 10); Leaf (AInt 11); Leaf (AInt 20); Leaf (AInt 21)] i
        = Some x ->
      DictInputs.__getitem__ r p = Ok x.
Proof.
  apply (dict_flatten_keeps_distinct_paths 3 nested_store (Ref 0));
    [reflexivity | exact four_paths_distinct].
Defined.

(** X12.  Paths can coincide: an [int] key and the [str] key that prints
    the same give their inner views the same prefix.  Flattening a
    mapping with two such keys, each over a view of one leaf, returns the
    same path twice, and [DictInputs.flatten] then keeps one entry only,
    with the later leaf: the first leaf is lost without an error. *)
Theorem dict_flatten_paths_clash (s : store) (a b c : addr) (n : Z)
    (k1 k2 : key) (x y : atom) (depth : nat) :
  __iter__ (s a) = [Ok (KInt n, Ref b); Ok (KStr (str_int n), Ref c)] ->
  __iter__ (s b) = [Ok (k1, Leaf x)] ->
  __iter__ (s c) = [Ok (k2, Leaf y)] ->
  3 <= depth ->
  _flatten depth s (Ref a) KNone =
    Ok ([KStr (str_int n ++ "_0"); KStr (str_int n ++ "_0")],
        [Leaf x; Leaf y]) /\
  exists r, DictInputs_flatten depth s (Ref a) = Ok r /\
    di_values r = [(KStr (str_int n ++ "_0"), Leaf y)] /\
    DictInputs.__len__ r = 1.
Proof.
  intros Ha Hb Hc Hd. destruct depth as [|[|[|depth]]]; try lia.
  assert (Eb : forall idx, _flatten (S (S depth)) s (Ref b) idx =
                 Ok ([BaseInputs.build_idx 0 idx KNone], [Leaf x])).
  { intro idx. rewrite flatten_ref, Hb.
    cbn [enumerate length seq combine fold_left].
    now rewrite (flatten_step_ok _ _ _ _ _ _ _ _ _ (flatten_leaf depth s x k1)). }
  assert (Ec : forall idx, _flatten (S (S depth)) s (Ref c) idx =
                 Ok ([BaseInputs.build_idx 0 idx KNone], [Leaf y])).
  { intro idx. rewrite flatten_ref, Hc.
    cbn [enumerate length seq combine fold_left].
    now rewrite (flatten_step_ok _ _ _ _ _ _ _ _ _ (flatten_leaf depth s y k2)). }
  assert (E : _flatten (S (S (S depth))) s (Ref a) KNone =
    Ok ([KStr (str_int n ++ "_0"); KStr (str_int n ++ "_0")],
        [Leaf x; Leaf y])).
  { rewrite flatten_ref, Ha. cbn [enumerate length seq combine fold_left].
    rewrite (flatten_step_ok _ _ _ _ _ _ _ _ _ (Eb (KInt n))).
    rewrite (flatten_step_ok _ _ _ _ _ _ _ _ _ (Ec (KStr (str_int n)))).
    reflexivity. }
  split; [exact E|].
  unfold DictInputs_flatten. rewrite E. cbn [bind].
  eexists. split; [reflexivity|].
  unfold DictInputs.__init__, DictInputs.__len__, BaseInputs.__len__, frozendict,
    dict_of_items.
  cbn [di_values combine fold_left fst snd dict_setitem].
  rewrite key_eqb_refl. split; reflexivity.
Qed.

Lemma dict_flatten_paths_clash_witness :
  _flatten 3 clash_store (Ref 0) KNone =
    Ok ([KStr "5_0"; KStr "5_0"], [Leaf (AInt 1); Leaf (AInt 2)]) /\
  exists r, DictInputs_flatten 3 clash_store (Ref 0) = Ok r /\
    di_values r = [(KStr "5_0", Leaf (AInt 2))] /\
    DictInputs.__len__ r = 1.
Proof.
  apply (dict_flatten_paths_clash clash_store 0 1 2 5 (KInt 0) (KInt 0));
    [reflexivity .. | lia].
Defined.

Lemma leaves_of (vals : list obj) :
  Forall is_leaf vals -> exists leaves, vals = map Leaf leaves.
Proof.
  induction 1 as [|o vals (x & ->) _ (leaves & ->)].
  - now exists [].
  - now exists (x :: leaves).
Qed.

Lemma list_iter_leaves (leaves : list atom) (ts : list pytype) :
  ListInputs.__iter__ {| li_values := map Leaf leaves; li_types := ts |}
  = map (fun kx => Ok (fst kx, Leaf (snd kx)))
        (map (fun ix => (KInt (Z.of_nat (fst ix)), snd ix)) (enumerate leaves)).
Proof.
  rewrite list_iter_enumerate. unfold enumerate.
  rewrite (enumerate_from_map Leaf leaves 0), !map_map. reflexivity.
Qed.

Lemma flatten_list_of_leaves (s : store) (b : addr) (leaves : list atom)
    (ts : list pytype) (depth : nat) :
  s b = OfList {| li_values := map Leaf leaves; li_types := ts |} ->
  2 <= depth ->
  _flatten depth s (Ref b) KNone =
  Ok (map position_path (seq 0 (length leaves)), map Leaf leaves).
Proof.
  intros Hb Hd.
  rewrite (flatten_flat s b
             (map (fun ix => (KInt (Z.of_nat (fst ix)), snd ix)) (enumerate leaves))
             depth); [| rewrite Hb; apply list_iter_leaves | exact Hd].
  unfold enumerate. rewrite !map_map, length_map, length_combine, length_seq,
    Nat.min_id. cbn [snd].
  rewrite <- (map_map snd Leaf), combine_snd by apply length_seq. reflexivity.
Qed.

Lemma init_leaves_any_store (s s' : store) (leaves : list atom) :
  ListInputs.__init__ s' (map Leaf leaves) None
  = ListInputs.__init__ s (map Leaf leaves) None.
Proof.
  unfold ListInputs.__init__, BaseInputs.__init__. f_equal.
  cbn [types_or]. rewrite !map_map. reflexivity.
Qed.

(** X13.  [ListInputs.flatten] is idempotent: the view it returns, put
    in a store and flattened again, comes back equal, values and types. *)
Theorem list_flatten_idempotent (depth depth' : nat) (s s' : store) (o : obj)
    (b : addr) (r : list_inputs) :
  ListInputs_flatten depth s o = Ok r ->
  s' b = OfList r ->
  2 <= depth' ->
  ListInputs_flatten depth' s' (Ref b) = Ok r.
Proof.
  intros H Hb Hd. unfold ListInputs_flatten in H.
  destruct (_flatten depth s o KNone) as [[idxs vals]|e] eqn:E; [|discriminate].
  cbn [bind] in H. injection H as <-.
  destruct (leaves_of vals (flatten_leaves _ _ _ _ _ _ E)) as (leaves & ->).
  unfold ListInputs_flatten.
  rewrite (flatten_list_of_leaves s' b leaves _ depth' Hb Hd). cbn [bind].
  f_equal. apply init_leaves_any_store.
Qed.

Lemma list_flatten_idempotent_witness :
  ListInputs_flatten 2 flat_store (Ref 0) =
  Ok (ListInputs.__init__ nested_store
        [Leaf (AInt 7); Leaf (AInt 8)] None).
Proof.
  apply (list_flatten_idempotent 2 2 flat_store flat_store (Ref 0) 0);
    [reflexivity | reflexivity | lia].
Defined.

(** The decimal numeral of an integer determines it. *)
Lemma str_int_inj (i j : Z) : str_int i = str_int j -> i = j.
Proof.
  unfold str_int. intro H.
  assert (P : forall z, NilZero.int_of_string (NilZero.string_of_int (Z.to_int z))
                        = Some (Z.to_int z)).
  { intro z. apply NilZero.isi; destruct z; simpl; try discriminate;
      intro E; injection E as E;
      exact (DecimalPos.Unsigned.to_uint_nonnil _ E). }
  apply DecimalZ.to_int_inj.
  pose proof (P i) as Pi. rewrite H, P in Pi. now injection Pi.
Qed.

Lemma nodup_map_injective {A B : Type} (f : A -> B) (l : list A) :
  (forall x y, f x = f y -> x = y) -> NoDup l -> NoDup (map f l).
Proof.
  intros Hf. induction 1 as [|x l Hx _ IH]; simpl; constructor; [|exact IH].
  intro Hin. apply in_map_iff in Hin. destruct Hin as (y & E & Hy).
  apply Hf in E. now subst.
Qed.

Lemma position_paths_distinct (from n : nat) :
  NoDup (map position_path (seq from n)).
Proof.
  apply nodup_map_injective; [|apply seq_NoDup].
  intros i j E. unfold position_path in E. injection E as E.
  apply str_int_inj in E. lia.
Qed.

(** X14.  [DictInputs.flatten] of a view whose elements are all leaves
    returns a mapping from the string forms of the positions 0..n-1 to
    the leaves, in order.  The keys of a flat mapping and the labels of a
    frame are replaced by positions; each leaf is found under the string
    of its position and, by the positional fallback, under the position
    itself. *)
Theorem dict_flatten_renames_keys (s : store) (a : addr)
    (items : list (key * atom)) (depth : nat) :
  __iter__ (s a) = map (fun kx => Ok (fst kx, Leaf (snd kx))) items ->
  2 <= depth ->
  exists r, DictInputs_flatten depth s (Ref a) = Ok r /\
    di_keys r = map position_path (seq 0 (length items)) /\
    dict_values (di_values r) = map (fun kx => Leaf (snd kx)) items /\
    forall i k x, nth_error items i = Some (k, x) ->
      DictInputs.__getitem__ r (position_path i) = Ok (Leaf x) /\
      DictInputs.__getitem__ r (KInt (Z.of_nat i)) = Ok (Leaf x).
Proof.
  intros Ha Hd.
  pose proof (flatten_flat s a items depth Ha Hd) as E.
  destruct (dict_flatten_distinct depth s (Ref a) _ _ E
              (position_paths_distinct 0 (length items)))
    as (r & Hr & Hv & Hk & Hvals & _ & Hget).
  exists r. repeat split; try assumption.
  - apply (Hget i).
    + rewrite nth_error_map, nth_error_seq.
      assert (i < length items) by (apply nth_error_Some; congruence).
      replace (Nat.ltb i (length items)) with true
        by (symmetry; apply Nat.ltb_lt; lia).
      reflexivity.
    + rewrite nth_error_map, H. reflexivity.
  - assert (Hi : i < length items) by (apply nth_error_Some; congruence).
    unfold DictInputs.__getitem__. rewrite Hk.
    replace (key_in (KInt (Z.of_nat i)) (map position_path (seq 0 (length items))))
      with false.
    2:{ symmetry. apply not_true_is_false. intro Hin.
        apply key_in_In, in_map_iff in Hin. destruct Hin as (j & Hj & _).
        discriminate. }
    rewrite (list_getitem_nat _ i (position_path i)).
    2:{ rewrite nth_error_map, nth_error_seq.
        replace (Nat.ltb i (length items)) with true
        by (symmetry; apply Nat.ltb_lt; lia).
        reflexivity. }
    cbn [bind].
    assert (G := Hget i (position_path i) (Leaf x)).
    unfold DictInputs.__getitem__ in G. rewrite Hk in G.
    replace (key_in (position_path i) (map position_path (seq 0 (length items))))
      with true in G.
    2:{ symmetry. apply key_in_In, in_map, in_seq. lia. }
    apply G.
    + rewrite nth_error_map, nth_error_seq.
      replace (Nat.ltb i (length items)) with true
        by (symmetry; apply Nat.ltb_lt; lia).
      reflexivity.
    + rewrite nth_error_map, H. reflexivity.
Qed.

Lemma dict_flatten_renames_keys_witness :
  exists r, DictInputs_flatten 2 dict_store (Ref 0) = Ok r /\
    di_keys r = [KStr "0"; KStr "1"] /\
    dict_values (di_values r) = [Leaf (AInt 1); Leaf (AInt 2)] /\
    forall i k x,
      nth_error [(KStr "a", AInt 1); (KStr "b", AInt 2)] i = Some (k, x) ->
      DictInputs.__getitem__ r (position_path i) = Ok (Leaf x) /\
      DictInputs.__getitem__ r (KInt (Z.of_nat i)) = Ok (Leaf x).
Proof.
  apply (dict_flatten_renames_keys dict_store 0
           [(KStr "a", AInt 1); (KStr "b", AInt 2)] 2); [reflexivity | lia].
Defined.

(** ** Lookups and iteration order of the views *)

Lemma list_getitem_from_end {A : Type} (l : list A) (i : nat) (x : A) :
  nth_error l i = Some x ->
  list_getitem l (KInt (Z.of_nat i - Z.of_nat (length l))) = Ok x.
Proof.
  intro H. assert (Hi : i < length l) by (apply nth_error_Some; congruence).
  unfold list_getitem.
  replace (Z.of_nat i - Z.of_nat (length l) <? 0)%Z with true
    by (symmetry; apply Z.ltb_lt; lia).
  replace (Z.of_nat i - Z.of_nat (length l) + Z.of_nat (length l))%Z
    with (Z.of_nat i) by lia.
  replace (0 <=? Z.of_nat i)%Z with true by (symmetry; apply Z.leb_le; lia).
  replace (Z.of_nat i <? Z.of_nat (length l))%Z with true
    by (symmetry; apply Z.ltb_lt; lia).
  simpl. now rewrite Nat2Z.id, H.
Qed.

Lemma nth_error_keys {V : Type} (d : pydict V) (i : nat) (k : key) (v : V) :
  nth_error d i = Some (k, v) -> nth_error (dict_keys d) i = Some k.
Proof. intro H. unfold dict_keys. now rewrite nth_error_map, H. Qed.

(** X15.  A DictInputs built from a mapping gives back what was put in:
    the value of an item is returned for its key, for its position when
    that position is not itself a key, and for its position counted from
    the end when that negative number is not a key.  A key match always
    goes before the position. *)
Theorem dict_lookup_round_trip (s : store) (d : pydict obj)
    (types : option (list pytype)) (i : nat) (k : key) (v : obj) :
  NoDup (dict_keys d) ->
  nth_error d i = Some (k, v) ->
  DictInputs.__getitem__ (DictInputs.__init__ s d types) k = Ok v /\
  (key_in (KInt (Z.of_nat i)) (dict_keys d) = false ->
   DictInputs.__getitem__ (DictInputs.__init__ s d types) (KInt (Z.of_nat i))
     = Ok v) /\
  (key_in (KInt (Z.of_nat i - Z.of_nat (length d))) (dict_keys d) = false ->
   DictInputs.__getitem__ (DictInputs.__init__ s d types)
     (KInt (Z.of_nat i - Z.of_nat (length d))) = Ok v).
Proof.
  intros Hnd Hi.
  assert (Hv : dict_getitem d k = Ok v)
    by (apply dict_getitem_nodup; [assumption | eapply nth_error_In; eassumption]).
  pose proof (nth_error_keys d i k v Hi) as Hk.
  unfold DictInputs.__getitem__, DictInputs.__init__, frozendict.
  cbn [di_keys di_values].
  repeat split.
  - replace (key_in k (dict_keys d)) with true
      by (symmetry; apply key_in_In; eapply nth_error_In; eassumption).
    exact Hv.
  - intros ->. rewrite (list_getitem_nat _ i k Hk). exact Hv.
  - intros ->. replace (length d) with (length (dict_keys d))
      by (unfold dict_keys; apply length_map).
    rewrite (list_getitem_from_end _ i k Hk). exact Hv.
Qed.

Lemma dict_lookup_round_trip_witness :
  DictInputs.__getitem__ dict_ab (KStr "b") = Ok (Leaf (AInt 2)) /\
  DictInputs.__getitem__ dict_ab (KInt 1) = Ok (Leaf (AInt 2)) /\
  DictInputs.__getitem__ dict_ab (KInt (-1)) = Ok (Leaf (AInt 2)).
Proof.
  destruct (dict_lookup_round_trip (fun _ => empty_list)
              [(KStr "a", Leaf (AInt 1)); (KStr "b", Leaf (AInt 2))] None
              1 (KStr "b") (Leaf (AInt 2))) as (H1 & H2 & H3);
    [repeat constructor; simpl; intuition discriminate | reflexivity |].
  exact (conj H1 (conj (H2 eq_refl) (H3 eq_refl))).
Defined.

(** X16.  In a DataframeInputs over a frame with distinct labels, a
    column is returned for its label and, when its position is not itself
    a label, for its position; a label always goes before a position.  An
    integer that is no label and lies outside [-len, len) is an
    [IndexError]. *)
Theorem dataframe_lookup (df : dataframe) (types : option (list pytype))
    (i : nat) (k : key) (c : series) :
  NoDup (df_columns df) ->
  nth_error (df_items df) i = Some (k, c) ->
  DataframeInputs.__getitem__ (DataframeInputs.__init__ df types) k
    = Ok (Leaf (to_numpy c)) /\
  (key_in (KInt (Z.of_nat i)) (df_columns df) = false ->
   DataframeInputs.__getitem__ (DataframeInputs.__init__ df types)
     (KInt (Z.of_nat i)) = Ok (Leaf (to_numpy c))) /\
  (forall j : Z,
     key_in (KInt j) (df_columns df) = false ->
     (Z.of_nat (DataframeInputs.__len__ (DataframeInputs.__init__ df types)) <= j
      \/ j < - Z.of_nat (DataframeInputs.__len__ (DataframeInputs.__init__ df types)))%Z ->
     DataframeInputs.__getitem__ (DataframeInputs.__init__ df types) (KInt j)
       = Raise IndexError).
Proof.
  intros Hnd Hi.
  unfold DataframeInputs.__getitem__, DataframeInputs.__init__,
    DataframeInputs.__len__, df_shape.
  cbn [fi_values snd]. repeat split.
  - replace (key_in k (df_columns df)) with true.
    2:{ symmetry. apply key_in_In. unfold df_columns.
        apply in_map_iff. exists (k, c). split; [reflexivity|].
        eapply nth_error_In; eassumption. }
    unfold df_getitem.
    rewrite (dict_getitem_nodup (df_items df) k c Hnd);
      [reflexivity | eapply nth_error_In; eassumption].
  - intros ->. unfold df_iloc.
    now rewrite (list_getitem_nat _ i (k, c) Hi).
  - intros j -> Hj. unfold df_iloc.
    now rewrite (list_getitem_outside _ j Hj).
Qed.

Lemma dataframe_lookup_witness :
  DataframeInputs.__getitem__ (DataframeInputs.__init__ frame_u0 None) (KInt 0)
    = Ok (Leaf (AArray "float64" [3; 4]%Z)) /\
  DataframeInputs.__getitem__ (DataframeInputs.__init__ frame_u0 None) (KInt 1)
    = Ok (Leaf (AArray "float64" [3; 4]%Z)) /\
  DataframeInputs.__getitem__ (DataframeInputs.__init__ frame_u0 None) (KInt 2)
    = Raise IndexError.
Proof.
  destruct (dataframe_lookup frame_u0 None 1 (KInt 0)
              {| s_dtype := "float64"; s_cells := [3; 4]%Z |})
    as (H1 & H2 & H3);
    [repeat constructor; simpl; intuition discriminate | reflexivity |].
  refine (conj H1 (conj (H2 eq_refl) (H3 2%Z eq_refl _))).
  simpl. lia.
Defined.

Lemma nd_getitem_column (self : nd_inputs) (idx : Z) :
  (0 <= idx < Z.of_nat (NDInputs.__len__ self))%Z ->
  NDInputs.__getitem__ self idx =
    Ok (Leaf (AArray (nd_dtype (ni_values self))
                (nd_column (ni_values self) (Z.to_nat idx)))).
Proof.
  unfold NDInputs.__getitem__, NDInputs.__len__, nd_getcol. intro H.
  replace (idx <? 0)%Z with false by (symmetry; apply Z.ltb_ge; lia).
  replace (0 <=? idx)%Z with true by (symmetry; apply Z.leb_le; lia).
  replace (idx <? Z.of_nat (snd (nd_shape (ni_values self))))%Z with true
    by (symmetry; apply Z.ltb_lt; lia).
  reflexivity.
Qed.

(** X17.  An NDInputs returns column [idx] of its array for a position
    within [0, len), the column [idx + len] for a negative index down to
    [-len], and raises [IndexError] outside; a column returned has the
    array's element type and one cell for each row held. *)
Theorem nd_getitem_bounds (self : nd_inputs) (idx : Z) :
  ((0 <= idx < Z.of_nat (NDInputs.__len__ self))%Z ->
   NDInputs.__getitem__ self idx =
     Ok (Leaf (AArray (nd_dtype (ni_values self))
                 (nd_column (ni_values self) (Z.to_nat idx))))) /\
  ((- Z.of_nat (NDInputs.__len__ self) <= idx < 0)%Z ->
   NDInputs.__getitem__ self idx =
     NDInputs.__getitem__ self (idx + Z.of_nat (NDInputs.__len__ self))) /\
  ((Z.of_nat (NDInputs.__len__ self) <= idx
    \/ idx < - Z.of_nat (NDInputs.__len__ self))%Z ->
   NDInputs.__getitem__ self idx = Raise IndexError) /\
  (forall dt cells,
     NDInputs.__getitem__ self idx = Ok (Leaf (AArray dt cells)) ->
     dt = nd_dtype (ni_values self) /\
     length cells = length (nd_rows (ni_values self))).
Proof.
  unfold NDInputs.__getitem__, NDInputs.__len__, nd_getcol.
  set (n := Z.of_nat (snd (nd_shape (ni_values self)))).
  repeat split.
  - intro H.
    replace (idx <? 0)%Z with false by (symmetry; apply Z.ltb_ge; lia).
    replace (0 <=? idx)%Z with true by (symmetry; apply Z.leb_le; lia).
    replace (idx <? n)%Z with true by (symmetry; apply Z.ltb_lt; lia).
    reflexivity.
  - intro H.
    replace (idx <? 0)%Z with true by (symmetry; apply Z.ltb_lt; lia).
    replace (idx + n <? 0)%Z with false by (symmetry; apply Z.ltb_ge; lia).
    reflexivity.
  - intro H. destruct (Z.ltb_spec idx 0).
    + replace (0 <=? idx + n)%Z with false by (symmetry; apply Z.leb_gt; lia).
      reflexivity.
    + replace (idx <? n)%Z with false by (symmetry; apply Z.ltb_ge; lia).
      now rewrite andb_false_r.
  - destruct (_ && _)%bool; [|discriminate]. cbn [bind] in H.
    now injection H as <- _.
  - destruct (_ && _)%bool; [|discriminate]. cbn [bind] in H.
    injection H as _ <-. unfold nd_column. apply length_map.
Qed.

Lemma nd_getitem_bounds_witness :
  NDInputs.__getitem__ (NDInputs.__init__ array_23 None) (-1)
    = Ok (Leaf (AArray "int64" [3; 6]%Z)) /\
  NDInputs.__getitem__ (NDInputs.__init__ array_23 None) 3 = Raise IndexError.
Proof.
  destruct (nd_getitem_bounds (NDInputs.__init__ array_23 None) (-1))
    as (_ & H2 & _).
  destruct (nd_getitem_bounds (NDInputs.__init__ array_23 None) 3)
    as (_ & _ & H3 & _).
  split; [rewrite H2; [reflexivity | simpl; lia] | apply H3; simpl; lia].
Defined.

(** X18.  The order of iteration.  An NDInputs yields its columns under
    the positions 0, 1, ... in ascending order, a ListInputs its elements
    likewise; a DictInputs built from a mapping yields the items of the
    mapping in insertion order, and a DataframeInputs over a frame with
    distinct labels its columns under their labels in declared order. *)
Theorem iteration_in_order (s : store) (a : ndarray) (df : dataframe)
    (d : pydict obj) (l : list obj) (t1 t2 t3 t4 : option (list pytype)) :
  NoDup (df_columns df) -> NoDup (dict_keys d) ->
  NDInputs.__iter__ (NDInputs.__init__ a t1) =
    map (fun i => Ok (KInt (Z.of_nat i), Leaf (AArray (nd_dtype a) (nd_column a i))))
        (seq 0 (snd (nd_shape a))) /\
  DataframeInputs.__iter__ (DataframeInputs.__init__ df t2) =
    map (fun kc => Ok (fst kc, Leaf (to_numpy (snd kc)))) (df_items df) /\
  DictInputs.__iter__ (DictInputs.__init__ s d t3) = map Ok d /\
  ListInputs.__iter__ (ListInputs.__init__ s l t4) =
    map (fun ix => Ok (KInt (Z.of_nat (fst ix)), snd ix)) (enumerate l).
Proof.
  intros Hdf Hd. repeat split.
  - unfold NDInputs.__iter__, NDInputs.__len__. cbn [NDInputs.__init__ ni_values].
    apply map_ext_in. intros i Hi. apply in_seq in Hi.
    rewrite (nd_getitem_column (NDInputs.__init__ a t1) (Z.of_nat i));
      [cbn [bind ni_values NDInputs.__init__]; now rewrite Nat2Z.id|].
    unfold NDInputs.__len__. cbn [NDInputs.__init__ ni_values]. lia.
  - unfold DataframeInputs.__iter__, df_columns.
    cbn [DataframeInputs.__init__ fi_values]. rewrite map_map.
    apply map_ext_in. intros [k c] Hin. cbn [fst snd].
    destruct (In_nth_error _ _ Hin) as (i & Hi).
    destruct (dataframe_getitem_label (DataframeInputs.__init__ df t2) k)
      as (v & Hv).
    { unfold df_columns. apply in_map_iff. now exists (k, c). }
    unfold DataframeInputs.__getitem__, df_getitem in *.
    cbn [DataframeInputs.__init__ fi_values] in *.
    replace (key_in k (df_columns df)) with true in *.
    2:{ symmetry. apply key_in_In. unfold df_columns.
        apply in_map_iff. now exists (k, c). }
    now rewrite (dict_getitem_nodup (df_items df) k c Hdf Hin).
  - unfold DictInputs.__iter__, DictInputs.__init__, frozendict, dict_keys.
    cbn [di_keys]. rewrite map_map.
    apply map_ext_in. intros [k v] Hin. cbn [fst].
    unfold DictInputs.__getitem__. cbn [di_keys di_values].
    replace (key_in k (map fst d)) with true.
    2:{ symmetry. apply key_in_In, in_map_iff. now exists (k, v). }
    now rewrite (dict_getitem_nodup d k v Hd Hin).
  - apply list_iter_enumerate.
Qed.

Lemma iteration_in_order_witness :
  DictInputs.__iter__ dict_ab =
    [Ok (KStr "a", Leaf (AInt 1)); Ok (KStr "b", Leaf (AInt 2))] /\
  DataframeInputs.__iter__ (DataframeInputs.__init__ frame_u0 None) =
    [Ok (KStr "u", Leaf (AArray "int64" [1; 2]%Z));
     Ok (KInt 0, Leaf (AArray "float64" [3; 4]%Z))].
Proof.
  destruct (iteration_in_order (fun _ => empty_list) array_23 frame_u0
              [(KStr "a", Leaf (AInt 1)); (KStr "b", Leaf (AInt 2))] []
              None None None None) as (_ & H2 & H3 & _);
    [repeat constructor; simpl; intuition discriminate .. |].
  split; [exact H3 | exact H2].
Defined.

(** ** Explicit types *)

Lemma types_or_length (tys inferred : list pytype) :
  length (types_or (Some tys) inferred) = length inferred <->
  tys = [] \/ length tys = length inferred.
Proof.
  destruct tys as [|t tys]; simpl.
  - split; [now left | reflexivity].
  - split; [now right | intros [E | E]; [discriminate | exact E]].
Qed.

(** X19.  Explicit types are stored as they are given, with no check
    against the values: a view built with explicit types has as many
    types as elements exactly when the list given has that length, or is
    empty, in which case it counts as absent and the types are
    inferred. *)
Theorem explicit_types_unchecked (s : store) (a : ndarray) (df : dataframe)
    (d : pydict obj) (l : list obj) (tys : list pytype) :
  (length (ni_types (NDInputs.__init__ a (Some tys)))
     = NDInputs.__len__ (NDInputs.__init__ a (Some tys))
   <-> tys = [] \/ length tys = snd (nd_shape a)) /\
  (length (fi_types (DataframeInputs.__init__ df (Some tys)))
     = DataframeInputs.__len__ (DataframeInputs.__init__ df (Some tys))
   <-> tys = [] \/ length tys = length (df_items df)) /\
  (length (di_types (DictInputs.__init__ s d (Some tys)))
     = DictInputs.__len__ (DictInputs.__init__ s d (Some tys))
   <-> tys = [] \/ length tys = length d) /\
  (length (li_types (ListInputs.__init__ s l (Some tys)))
     = ListInputs.__len__ (ListInputs.__init__ s l (Some tys))
   <-> tys = [] \/ length tys = length l).
Proof.
  split; [|split; [|split]].
  - unfold NDInputs.__len__. cbn [NDInputs.__init__ ni_types ni_values].
    pose proof (types_or_length tys
                  (repeat (Dtype (nd_dtype a)) (nd_len (nd_T a)))) as H.
    rewrite repeat_length in H. exact H.
  - pose proof (types_or_length tys (df_dtypes df)) as H.
    unfold df_dtypes in H at 2 3. rewrite length_map in H. exact H.
  - pose proof (types_or_length tys (map (type_ s) (dict_values d))) as H.
    unfold dict_values in H at 2 3. rewrite !length_map in H. exact H.
  - pose proof (types_or_length tys (map (type_ s) l)) as H.
    rewrite (length_map (type_ s) l) in H. exact H.
Qed.

(** ** Three levels *)

Lemma flatten_single (s : store) (a : addr) (k : key) (v : obj) (depth : nat)
    (idx : key) (ni : list key) (nv : list obj) :
  __iter__ (s a) = [Ok (k, v)] ->
  _flatten depth s v k = Ok (ni, nv) ->
  _flatten (S depth) s (Ref a) idx =
  Ok (map (BaseInputs.build_idx 0 idx) ni, nv).
Proof.
  intros Ha Hv. rewrite flatten_ref, Ha.
  cbn [enumerate length seq combine fold_left].
  now rewrite (flatten_step_ok _ _ _ _ _ _ _ _ _ Hv).
Qed.

(** X23.  Along a chain of three views the path of a leaf is
    ["{outer}_{middle}_{position}"]: the index the top view yields for
    the middle view, the index the middle view yields for the inner
    view, and the position of the leaf in the inner view; the index the
    inner view yields for the leaf is not in the path. *)
Theorem flatten_three_levels (s : store) (a m n : addr) (k1 k2 k3 : key)
    (x : atom) (depth : nat) :
  __iter__ (s a) = [Ok (k1, Ref m)] ->
  __iter__ (s m) = [Ok (k2, Ref n)] ->
  __iter__ (s n) = [Ok (k3, Leaf x)] ->
  k1 <> KNone -> k2 <> KNone ->
  4 <= depth ->
  _flatten depth s (Ref a) KNone =
  Ok ([KStr (str k1 ++ "_" ++ str k2 ++ "_" ++ "0")%string], [Leaf x]).
Proof.
  intros Ha Hm Hn H1 H2 Hd.
  destruct depth as [|[|[|[|depth]]]]; try lia.
  pose proof (flatten_single s n k3 (Leaf x) (S depth) k2 _ _ Hn
                (flatten_leaf depth s x k3)) as En.
  pose proof (flatten_single s m k2 (Ref n) (S (S depth)) k1 _ _ Hm En) as Em.
  rewrite (flatten_single s a k1 (Ref m) (S (S (S depth))) KNone _ _ Ha Em).
  f_equal. f_equal. cbn [map].
  destruct k1; [contradiction | |]; (destruct k2; [contradiction | |]);
    reflexivity.
Qed.

Lemma flatten_three_levels_witness :
  _flatten 4
    (fun a => match a with
              | 0 => OfDict (DictInputs.__init__ nested_store
                               [(KStr "out", Ref 1)] None)
              | 1 => OfDict (DictInputs.__init__ nested_store
                               [(KStr "mid", Ref 2)] None)
              | 2 => OfDict (DictInputs.__init__ nested_store
                               [(KStr "in", Leaf (AInt 9))] None)
              | _ => empty_list
              end)
    (Ref 0) KNone
  = Ok ([KStr "out_mid_0"], [Leaf (AInt 9)]).
Proof.
  apply (flatten_three_levels _ 0 1 2 (KStr "out") (KStr "mid") (KStr "in"));
    [reflexivity | reflexivity | reflexivity | discriminate | discriminate | lia].
Defined.
